(** * Wing backtester: a shallow embedding of [backend/backtesting]

    The development follows the three Python modules of the backtester:

    - [logic.py]            (module [Logic]):         the crossover [buy]/[sell] rules;
    - [logic_stop_loss.py]  (module [LogicStopLoss]): the stateless stop-loss rules;
    - [backtesting.py]      (module [Backtesting]):   [Backtester.calculate_rsi] and
                                                      [Backtester.run_backtest].

    Numbers.  The program computes with IEEE-754 doubles (pandas / numpy
    float64).  They are modelled by [fval]: exact rationals extended with
    [+inf], [-inf] and [NaN], with the IEEE rules for the special values
    (division by zero yields an infinity or NaN and never raises, every
    comparison with NaN is false).  Rounding and the sign of zero are not
    modelled.

    pandas.  [Series.diff], [Series.where], [Series.rolling(w).mean()],
    the element-wise arithmetic and [DataFrame.dropna] are library code; module
    [Pandas] gives their documented behaviour on lists. *)

From Stdlib Require Import List Bool Arith Lia ZArith QArith Lqa Sorted.
Import ListNotations.

Set Implicit Arguments.

(* ================================================================== *)
(** * Numbers *)
(* ================================================================== *)

Module Float.

Inductive fval : Type :=
| Num (q : Q)
| PInf
| NInf
| NaN.

Definition Qlt_bool (a b : Q) : bool := negb (Qle_bool b a).

Definition zero : fval := Num 0.

Definition inf_of_sign (positive : bool) : fval :=
  if positive then PInf else NInf.

Definition fneg (a : fval) : fval :=
  match a with
  | Num q => Num (- q)
  | PInf => NInf
  | NInf => PInf
  | NaN => NaN
  end.

Definition fadd (a b : fval) : fval :=
  match a, b with
  | NaN, _ | _, NaN => NaN
  | Num x, Num y => Num (x + y)
  | PInf, NInf | NInf, PInf => NaN
  | PInf, _ | _, PInf => PInf
  | NInf, _ | _, NInf => NInf
  end.

(** IEEE: [a - b] is [a + (-b)]. *)
Definition fsub (a b : fval) : fval := fadd a (fneg b).

Definition fmul (a b : fval) : fval :=
  match a, b with
  | NaN, _ | _, NaN => NaN
  | Num x, Num y => Num (x * y)
  | Num x, PInf | PInf, Num x =>
      if Qeq_bool x 0 then NaN else inf_of_sign (Qlt_bool 0 x)
  | Num x, NInf | NInf, Num x =>
      if Qeq_bool x 0 then NaN else inf_of_sign (Qlt_bool x 0)
  | PInf, PInf | NInf, NInf => PInf
  | PInf, NInf | NInf, PInf => NInf
  end.

(** Division never raises: a finite nonzero number over zero is an infinity,
    [0 / 0] and [inf / inf] are NaN. *)
Definition fdiv (a b : fval) : fval :=
  match a, b with
  | NaN, _ | _, NaN => NaN
  | Num x, Num y =>
      if Qeq_bool y 0
      then (if Qeq_bool x 0 then NaN else inf_of_sign (Qlt_bool 0 x))
      else Num (x / y)
  | Num _, PInf | Num _, NInf => Num 0
  | PInf, Num y => inf_of_sign (Qle_bool 0 y)
  | NInf, Num y => inf_of_sign (Qlt_bool y 0)
  | PInf, PInf | PInf, NInf | NInf, PInf | NInf, NInf => NaN
  end.

(** [a < b]; false as soon as one side is NaN. *)
Definition fltb (a b : fval) : bool :=
  match a, b with
  | Num x, Num y => Qlt_bool x y
  | Num _, PInf => true
  | NInf, Num _ => true
  | NInf, PInf => true
  | _, _ => false
  end.

(** [a > b]. *)
Definition fgtb (a b : fval) : bool := fltb b a.

(** [a == b]; NaN is not equal to itself. *)
Definition feqb (a b : fval) : bool :=
  match a, b with
  | Num x, Num y => Qeq_bool x y
  | PInf, PInf => true
  | NInf, NInf => true
  | _, _ => false
  end.

Definition is_nan (a : fval) : bool :=
  match a with NaN => true | _ => false end.

Definition is_finite (a : fval) : bool :=
  match a with Num _ => true | _ => false end.

Definition of_nat (n : nat) : fval := Num (inject_Z (Z.of_nat n)).

Definition fsum (l : list fval) : fval := fold_left fadd l zero.

End Float.
Import Float.

(* ================================================================== *)
(** * The pandas operations used by the backtester *)
(* ================================================================== *)

Module Pandas.

(** [s.diff()]: the first entry is NaN, entry [i] is [s[i] - s[i-1]].
    [diff_from prev] is the series of differences when the element before the
    head is [prev]; subtracting NaN gives the leading NaN. *)
Fixpoint diff_from (prev : fval) (s : list fval) : list fval :=
  match s with
  | [] => []
  | x :: rest => fsub x prev :: diff_from x rest
  end.

Definition diff (s : list fval) : list fval := diff_from NaN s.

(** [s.where(cond, other)]: keeps the entries where [cond] is true and puts
    [other] elsewhere (also where the entry is NaN and the test is false). *)
Definition where_ (cond : fval -> bool) (other : fval) (s : list fval)
  : list fval :=
  map (fun x => if cond x then x else other) s.

(** One window of [rolling(window).mean()].  [upto] holds the entries
    [s[0..i]]; the window is its last [window] entries.  With the default
    [min_periods = window], the result is NaN when fewer than [window] entries
    exist or when one entry of the window is missing; pandas turns infinities
    into missing values before it averages. *)
Definition window_mean (window : nat) (upto : list fval) : fval :=
  if length upto <? window then NaN
  else
    let w := skipn (length upto - window) upto in
    if forallb is_finite w then fdiv (fsum w) (of_nat window) else NaN.

Definition rolling_mean (window : nat) (s : list fval) : list fval :=
  map (fun i => window_mean window (firstn (S i) s)) (seq 0 (length s)).

(** Element-wise binary operation on two series of the same index. *)
Fixpoint zip_with (f : fval -> fval -> fval) (a b : list fval) : list fval :=
  match a, b with
  | x :: a', y :: b' => f x y :: zip_with f a' b'
  | _, _ => []
  end.

End Pandas.
Import Pandas.

(* ================================================================== *)
(** * logic.py *)
(* ================================================================== *)

Module Logic.

Definition buy (rsi_prev rsi_now rsi_ma current_price prev_price : fval) : bool :=
  let delta_rsi := fsub rsi_now rsi_prev in
  let delta_price := fsub current_price prev_price in
  if fgtb rsi_now rsi_ma && fgtb delta_price zero then true else false.

Definition sell (rsi_prev rsi_now rsi_ma current_price prev_price : fval) : bool :=
  let delta_rsi := fsub rsi_now rsi_prev in
  let delta_price := fsub current_price prev_price in
  if fltb rsi_now rsi_ma && fltb delta_price zero then true else false.

End Logic.

(* ================================================================== *)
(** * logic_stop_loss.py *)
(* ================================================================== *)

Module LogicStopLoss.

Definition check_for_buy (rsi_now rsi_ma current_price prev_price : fval)
           (is_invested : bool) : bool :=
  let delta_price := fsub current_price prev_price in
  if fgtb rsi_now rsi_ma && fgtb delta_price zero && negb is_invested
  then true else false.

Definition check_for_sell (rsi_now rsi_ma current_price purchase_price : fval)
           (is_invested : bool) : bool :=
  if negb is_invested then false
  else
    let stop_loss_price := fmul purchase_price (Num (99 # 100)) in
    let take_profit_condition := fltb rsi_now rsi_ma in
    if fltb current_price stop_loss_price || take_profit_condition
    then true else false.

End LogicStopLoss.

(* ================================================================== *)
(** * backtesting.py *)
(* ================================================================== *)

Module Backtesting.

Import Logic.

(** [Backtester.__init__]: the two window attributes (the API handle and the
    symbol play no part in the simulation). *)
Record Backtester : Type := mkBacktester {
  rsi_window : nat;
  ma_window : nat
}.

Definition default_backtester : Backtester :=
  {| rsi_window := 14; ma_window := 14 |}.

(** One row of the fetched DataFrame; its index label is the timestamp.
    [extra] holds the further columns the data feed delivers (trade count,
    volume-weighted price): the simulation reads none of them, but [dropna]
    looks at every column. *)
Record Bar : Type := mkBar {
  timestamp : Z;
  open : fval;
  high : fval;
  low : fval;
  close : fval;
  volume : fval;
  extra : list fval
}.

(** A row after the [rsi] and [rsi_ma] columns are added.  [row_pos] is the
    position of the row in the fetched frame: [dropna] keeps the labels of the
    rows it keeps, and the position stands for that label. *)
Record Row : Type := mkRow {
  row_pos : nat;
  row_bar : Bar;
  rsi : fval;
  rsi_ma : fval
}.

Definition hundred : fval := Num 100.
Definition one : fval := Num 1.

Definition gain_series (prices : list fval) : list fval :=
  where_ (fun d => fgtb d zero) zero (diff prices).

Definition loss_series (prices : list fval) : list fval :=
  map fneg (where_ (fun d => fltb d zero) zero (diff prices)).

Definition avg_gain (prices : list fval) (window : nat) : list fval :=
  rolling_mean window (gain_series prices).

Definition avg_loss (prices : list fval) (window : nat) : list fval :=
  rolling_mean window (loss_series prices).

Definition rsi_of_rs (rs : fval) : fval :=
  fsub hundred (fdiv hundred (fadd one rs)).

Definition calculate_rsi (prices : list fval) (window : nat) : list fval :=
  let gain := avg_gain prices window in
  let loss := avg_loss prices window in
  let rs := zip_with fdiv gain loss in
  map rsi_of_rs rs.

Fixpoint assemble (pos : nat) (bars : list Bar) (rsi_col rsi_ma_col : list fval)
  : list Row :=
  match bars, rsi_col, rsi_ma_col with
  | b :: bars', r :: rsi', m :: ma' =>
      mkRow pos b r m :: assemble (S pos) bars' rsi' ma'
  | _, _, _ => []
  end.

(** [bars['rsi'] = ...; bars['rsi_ma'] = bars['rsi'].rolling(...).mean()]. *)
Definition add_indicators (self : Backtester) (bars : list Bar) : list Row :=
  let rsi_col := calculate_rsi (map close bars) (rsi_window self) in
  let rsi_ma_col := rolling_mean (ma_window self) rsi_col in
  assemble 0 bars rsi_col rsi_ma_col.

Definition row_has_nan (r : Row) : bool :=
  existsb is_nan (extra (row_bar r))
  || is_nan (open (row_bar r)) || is_nan (high (row_bar r))
  || is_nan (low (row_bar r)) || is_nan (close (row_bar r))
  || is_nan (volume (row_bar r)) || is_nan (rsi r) || is_nan (rsi_ma r).

(** [bars.dropna()]: drops every row with a missing value in some column. *)
Definition dropna (rows : list Row) : list Row :=
  filter (fun r => negb (row_has_nan r)) rows.

Inductive Action : Type := BUY | SELL.

(** The dict appended to [trades]; the keys ['profit'] and ['profit_pct']
    exist on some dicts only. *)
Record Trade : Type := mkTrade {
  t_timestamp : Z;
  t_action : Action;
  t_price : fval;
  t_amount : fval;
  t_value : fval;
  t_rsi : fval;
  t_rsi_ma : fval;
  t_delta_rsi : fval;
  t_delta_price : fval;
  t_profit : option fval;
  t_profit_pct : option fval
}.

(** The trading variables of [run_backtest]. *)
Record State : Type := mkState {
  cash : fval;
  position : fval;
  position_value : fval;
  in_position : bool;
  trades : list Trade
}.

Definition initial_state (initial_capital : fval) : State :=
  {| cash := initial_capital;
     position := zero;
     position_value := zero;
     in_position := false;
     trades := [] |}.

Definition buy_signal (current_bar prev_bar : Row) (s : State) : bool :=
  negb (in_position s)
  && buy (rsi prev_bar) (rsi current_bar) (rsi_ma current_bar)
         (close (row_bar current_bar)) (close (row_bar prev_bar)).

Definition sell_signal (current_bar prev_bar : Row) (s : State) : bool :=
  in_position s
  && sell (rsi prev_bar) (rsi current_bar) (rsi_ma current_bar)
          (close (row_bar current_bar)) (close (row_bar prev_bar)).

Definition buy_record (current_bar prev_bar : Row) (s : State) : Trade :=
  let current_price := close (row_bar current_bar) in
  {| t_timestamp := timestamp (row_bar current_bar);
     t_action := BUY;
     t_price := current_price;
     t_amount := fdiv (cash s) current_price;
     t_value := cash s;
     t_rsi := rsi current_bar;
     t_rsi_ma := rsi_ma current_bar;
     t_delta_rsi := fsub (rsi current_bar) (rsi prev_bar);
     t_delta_price := fsub current_price (close (row_bar prev_bar));
     t_profit := None;
     t_profit_pct := None |}.

Definition sell_record (current_bar prev_bar : Row) (s : State) : Trade :=
  let current_price := close (row_bar current_bar) in
  let cash' := fmul (position s) current_price in
  let profit := fsub cash' (position_value s) in
  let profit_pct := fmul (fdiv profit (position_value s)) hundred in
  {| t_timestamp := timestamp (row_bar current_bar);
     t_action := SELL;
     t_price := current_price;
     t_amount := position s;
     t_value := cash';
     t_rsi := rsi current_bar;
     t_rsi_ma := rsi_ma current_bar;
     t_delta_rsi := fsub (rsi current_bar) (rsi prev_bar);
     t_delta_price := fsub current_price (close (row_bar prev_bar));
     t_profit := Some profit;
     t_profit_pct := Some profit_pct |}.

(** The body of [for i in range(1, len(bars))], with
    [current_bar = bars.iloc[i]] and [prev_bar = bars.iloc[i-1]]. *)
Definition loop_body (current_bar prev_bar : Row) (s : State) : State :=
  let current_price := close (row_bar current_bar) in
  if buy_signal current_bar prev_bar s then
    {| cash := zero;
       position := fdiv (cash s) current_price;
       position_value := cash s;
       in_position := true;
       trades := trades s ++ [buy_record current_bar prev_bar s] |}
  else if sell_signal current_bar prev_bar s then
    {| cash := fmul (position s) current_price;
       position := zero;
       position_value := zero;
       in_position := false;
       trades := trades s ++ [sell_record current_bar prev_bar s] |}
  else s.

Inductive PyError : Type := IndexError | ZeroDivisionError.

(** [bars.iloc[i]]; out of range it raises IndexError ([None]). *)
Definition iloc (rows : list Row) (i : nat) : option Row := nth_error rows i.

(** [range(lo, hi)]. *)
Definition range (lo hi : nat) : list nat := seq lo (hi - lo).

Fixpoint for_each (idxs : list nat) (rows : list Row) (s : State)
  : option State :=
  match idxs with
  | [] => Some s
  | i :: rest =>
      match iloc rows i, iloc rows (i - 1) with
      | Some current_bar, Some prev_bar =>
          for_each rest rows (loop_body current_bar prev_bar s)
      | _, _ => None
      end
  end.

(** What one iteration of the loop decided: which bar was the current bar,
    which branch was taken and which dict, if any, was appended. *)
Record Event : Type := mkEvent {
  ev_pos : nat;
  ev_bar : Bar;
  ev_action : option Action;
  ev_trade : option Trade
}.

Definition event_of (current_bar prev_bar : Row) (s : State) : Event :=
  if buy_signal current_bar prev_bar s then
    mkEvent (row_pos current_bar) (row_bar current_bar) (Some BUY)
            (Some (buy_record current_bar prev_bar s))
  else if sell_signal current_bar prev_bar s then
    mkEvent (row_pos current_bar) (row_bar current_bar) (Some SELL)
            (Some (sell_record current_bar prev_bar s))
  else mkEvent (row_pos current_bar) (row_bar current_bar) None None.

(** The iterations of the loop, in the order they run. *)
Fixpoint loop_trace (idxs : list nat) (rows : list Row) (s : State)
  : list Event :=
  match idxs with
  | [] => []
  | i :: rest =>
      match iloc rows i, iloc rows (i - 1) with
      | Some current_bar, Some prev_bar =>
          event_of current_bar prev_bar s
          :: loop_trace rest rows (loop_body current_bar prev_bar s)
      | _, _ => []
      end
  end.

(** The states of the loop: before the first iteration and after each one. *)
Fixpoint loop_states (idxs : list nat) (rows : list Row) (s : State)
  : list State :=
  s :: match idxs with
       | [] => []
       | i :: rest =>
           match iloc rows i, iloc rows (i - 1) with
           | Some current_bar, Some prev_bar =>
               loop_states rest rows (loop_body current_bar prev_bar s)
           | _, _ => []
           end
       end.

Inductive Outcome : Type :=
| NoData
| Finished (trades : list Trade) (final_value : fval)
| Raised (e : PyError).

Definition is_zero (a : fval) : bool := feqb a zero.

(** [run_backtest]; [feed] is what [get_historical_data] returned ([None]
    when the request failed).  [initial_capital] is a Python number.  The
    summary divides [total_return] by it: as long as no trade was made
    [total_return] is a Python number too and Python raises
    ZeroDivisionError on a zero divisor; after a trade [total_return] is a
    numpy float64, whose division yields inf or nan instead. *)
Definition run_backtest (self : Backtester) (feed : option (list Bar))
           (initial_capital : fval) : Outcome :=
  match feed with
  | None => NoData
  | Some fetched =>
      if (length fetched =? 0)%nat then NoData
      else
        let bars := dropna (add_indicators self fetched) in
        match for_each (range 1 (length bars)) bars
                       (initial_state initial_capital) with
        | None => Raised IndexError
        | Some s =>
            let mark :=
              if in_position s
              then match iloc bars (length bars - 1) with
                   | Some last_bar =>
                       Some (fmul (position s) (close (row_bar last_bar)))
                   | None => None
                   end
              else Some zero in
            match mark with
            | None => Raised IndexError
            | Some m =>
                let final_value := fadd (cash s) m in
                let total_return := fsub final_value initial_capital in
                match trades s with
                | [] => if is_zero initial_capital
                        then Raised ZeroDivisionError
                        else Finished (trades s) final_value
                | _ :: _ => Finished (trades s) final_value
                end
            end
        end
  end.

(** The rows the loop of [run_backtest] iterates over. *)
Definition cleaned (self : Backtester) (fetched : list Bar) : list Row :=
  dropna (add_indicators self fetched).

(** The iterations the loop performs on a fetched frame. *)
Definition backtest_trace (self : Backtester) (fetched : list Bar)
           (initial_capital : fval) : list Event :=
  let bars := cleaned self fetched in
  loop_trace (range 1 (length bars)) bars (initial_state initial_capital).

(** The states the trading variables go through on a fetched frame. *)
Definition backtest_states (self : Backtester) (fetched : list Bar)
           (initial_capital : fval) : list State :=
  let bars := cleaned self fetched in
  loop_states (range 1 (length bars)) bars (initial_state initial_capital).

(** The decision taken at the bar at position [i] of the fetched frame, if
    the loop reached that bar as its current bar. *)
Definition decision_at (self : Backtester) (fetched : list Bar)
           (initial_capital : fval) (i : nat) : option Event :=
  find (fun e => (ev_pos e =? i)%nat)
       (backtest_trace self fetched initial_capital).

End Backtesting.
Import Backtesting.

(* ================================================================== *)
(** * Auxiliary definitions for the proofs *)
(* ================================================================== *)

Module Aux.

(** The loop of [run_backtest] seen as a walk over consecutive rows:
    [prev] is the row before the head of [rest]. *)
Fixpoint run_from (prev : Row) (rest : list Row) (s : State) : State :=
  match rest with
  | [] => s
  | cur :: rest' => run_from cur rest' (loop_body cur prev s)
  end.

Fixpoint trace_from (prev : Row) (rest : list Row) (s : State) : list Event :=
  match rest with
  | [] => []
  | cur :: rest' =>
      event_of cur prev s :: trace_from cur rest' (loop_body cur prev s)
  end.

Fixpoint states_from (prev : Row) (rest : list Row) (s : State) : list State :=
  s :: match rest with
       | [] => []
       | cur :: rest' => states_from cur rest' (loop_body cur prev s)
       end.

(** The state the loop ends in on the cleaned rows. *)
Definition walk (rows : list Row) (s : State) : State :=
  match rows with
  | [] => s
  | r0 :: rest => run_from r0 rest s
  end.

(** All-in / all-out: cash and position are never held together. *)
Definition exclusive (s : State) : Prop :=
  (in_position s = true -> cash s = zero)
  /\ (in_position s = false -> position s = zero /\ position_value s = zero).

Definition flip (a : Action) : Action :=
  match a with BUY => SELL | SELL => BUY end.

Definition action_eqb (a b : Action) : bool :=
  match a, b with
  | BUY, BUY | SELL, SELL => true
  | _, _ => false
  end.

(** [alternates a l]: the actions of [l] are [a], [flip a], [a], ... *)
Fixpoint alternates (a : Action) (l : list Trade) : bool :=
  match l with
  | [] => true
  | t :: rest => action_eqb (t_action t) a && alternates (flip a) rest
  end.

(** The action an alternating ledger that starts with [a] expects next. *)
Fixpoint expected_after (a : Action) (l : list Trade) : Action :=
  match l with
  | [] => a
  | _ :: rest => expected_after (flip a) rest
  end.

(** The ledger alternates from BUY and agrees with the position flag. *)
Definition ledger_inv (s : State) : Prop :=
  alternates BUY (trades s) = true
  /\ expected_after BUY (trades s) = (if in_position s then SELL else BUY).

(** Two values are the same number: equal rationals, or the same special
    value (NaN included). *)
Definition same_value (a b : fval) : Prop :=
  match a, b with
  | Num x, Num y => x == y
  | PInf, PInf | NInf, NInf | NaN, NaN => True
  | _, _ => False
  end.

(** While a position is held, the last record of the ledger is the BUY that
    opened it: it carries the quantity held and the cash committed, and the
    quantity is the cash committed over the entry price. *)
Definition entry_inv (s : State) : Prop :=
  in_position s = true ->
  exists earlier t,
    trades s = earlier ++ [t]
    /\ t_action t = BUY
    /\ t_amount t = position s
    /\ t_value t = position_value s
    /\ t_amount t = fdiv (t_value t) (t_price t).

(** The profit keys exist on the SELL dicts and on no BUY dict. *)
Definition profit_fields (l : list Trade) : Prop :=
  forall t, In t l ->
    (t_action t = BUY -> t_profit t = None /\ t_profit_pct t = None)
    /\ (t_action t = SELL -> t_profit t <> None /\ t_profit_pct t <> None).

(** The number of leading rows without a defined [rsi_ma]. *)
Definition warm_up (self : Backtester) : nat :=
  ((rsi_window self - 1) + (ma_window self - 1))%nat.

(** An average over a window of zeros: zero, or NaN while the window is not
    full. *)
Definition zero_or_nan (a : fval) : Prop :=
  a = NaN \/ exists z, a = Num z /\ z == 0.

(** The first row of the frame whose [rsi] and [rsi_ma] are both defined. *)
Definition first_defined (self : Backtester) (fetched : list Bar)
  : option Row :=
  find (fun r => negb (is_nan (rsi r)) && negb (is_nan (rsi_ma r)))
       (add_indicators self fetched).

(** The reading under which the loop takes a decision at the first bar
    whose indicators are defined. *)
Definition evaluates_first_defined (self : Backtester) (fetched : list Bar)
           (cap : fval) : Prop :=
  forall r, first_defined self fetched = Some r ->
            decision_at self fetched cap (row_pos r) <> None.

(** The reading under which a run whose cleaned frame has fewer rows than
    the two windows together returns no result. *)
Definition rejects_short_feeds (self : Backtester) : Prop :=
  forall fetched cap,
    (length (cleaned self fetched) < rsi_window self + ma_window self)%nat ->
    run_backtest self (Some fetched) cap = NoData.

(** Example data. *)

Definition rising_prices : list fval := [Num 1; Num 2; Num 3; Num 4; Num 5].

Definition bar_at (t : nat) (c : Z) : Bar :=
  let p := Num (inject_Z c) in
  {| timestamp := Z.of_nat t; open := p; high := p; low := p; close := p;
     volume := Num 1; extra := [] |}.

Fixpoint feed_from (t : nat) (closes : list Z) : list Bar :=
  match closes with
  | [] => []
  | c :: rest => bar_at t c :: feed_from (S t) rest
  end.

Definition closes28 : list Z :=
  [10; 11; 10; 12; 11; 13; 12; 14; 13; 15; 14; 16; 15; 17;
   16; 18; 17; 19; 18; 20; 19; 21; 20; 22; 21; 23; 22; 30]%Z.

(** A feed of 28 one-minute bars, and its first 27 bars. *)
Definition feed28 : list Bar := feed_from 0 closes28.
Definition feed27 : list Bar := firstn 27 feed28.

(** Four more bars: the position bought at bar 27 is sold at bar 28. *)
Definition feed32 : list Bar := feed_from 0 (closes28 ++ [20; 15; 25; 24]%Z).

(** The state of the feed32 run after bar 27, where the position is held. *)
Definition held_state : State :=
  nth 1 (backtest_states default_backtester feed32 (Num 100))
      (initial_state zero).

(** The state after bar 28, where the position has been sold, and the
    decision taken at bar 28. *)
Definition sold_state : State :=
  nth 2 (backtest_states default_backtester feed32 (Num 100))
      (initial_state zero).

Definition sell_event : Event :=
  nth 1 (backtest_trace default_backtester feed32 (Num 100))
      (mkEvent 0 (bar_at 0 0) None None).

(** Thirty bars that all close at 5, and the ledger of the feed32 run. *)
Definition flat_feed : list Bar := feed_from 0 (repeat 5%Z 30).

Definition ledger32 : list Trade :=
  match run_backtest default_backtester (Some feed32) (Num 100) with
  | Finished l _ => l
  | _ => []
  end.

Definition final32 : fval :=
  match run_backtest default_backtester (Some feed32) (Num 100) with
  | Finished _ fv => fv
  | _ => NaN
  end.

End Aux.
Import Aux.

(* ================================================================== *)
(** * Definitions for the further properties *)
(* ================================================================== *)

Module Props.

(** A value that is not negative: a number at least 0, [+inf], or missing. *)
Definition ext_nonneg (a : fval) : Prop :=
  match a with
  | Num q => 0 <= q
  | PInf | NaN => True
  | NInf => False
  end.

(** Missing, or exactly 100. *)
Definition hundred_or_nan (a : fval) : Prop := a = NaN \/ a = Num 100.

(** Missing, or a number equal to 100. *)
Definition about_hundred_or_nan (a : fval) : Prop :=
  a = NaN \/ exists m, a = Num m /\ m == 100.

(** No entry of the series is below the entry before it (Python's [<]). *)
Fixpoint never_falls_from (prev : fval) (l : list fval) : Prop :=
  match l with
  | [] => True
  | x :: rest => fltb x prev = false /\ never_falls_from x rest
  end.

Definition never_falls (l : list fval) : Prop := never_falls_from NaN l.

(** The trading variables when the loop of [run_backtest] is over. *)
Definition final_state (self : Backtester) (fetched : list Bar)
           (initial_capital : fval) : State :=
  walk (cleaned self fetched) (initial_state initial_capital).

(** The dict one iteration appended, as a list. *)
Definition ev_record (e : Event) : list Trade :=
  match ev_trade e with
  | Some t => [t]
  | None => []
  end.

(** How a ledger ends: with the cash in hand, or with an open BUY. *)
Inductive ChainEnd : Type :=
| Flat (c : fval)
| Held (b : Trade).

(** [chain c l]: starting with cash [c], the ledger [l] is a sequence of
    round trips.  Each BUY commits all the cash and records the quantity
    [cash / price]; the SELL after it sells that quantity, records
    [quantity * price] as its value and the difference to the committed
    cash as its profit; the next BUY commits the value of that SELL. *)
Fixpoint chain (c : fval) (l : list Trade) : Prop :=
  match l with
  | [] => True
  | b :: rest =>
      t_action b = BUY
      /\ t_value b = c
      /\ t_amount b = fdiv c (t_price b)
      /\ t_profit b = None
      /\ t_profit_pct b = None
      /\ match rest with
         | [] => True
         | s :: rest' =>
             t_action s = SELL
             /\ t_amount s = t_amount b
             /\ t_value s = fmul (t_amount b) (t_price s)
             /\ t_profit s = Some (fsub (t_value s) c)
             /\ t_profit_pct s
                = Some (fmul (fdiv (fsub (t_value s) c) c) hundred)
             /\ chain (t_value s) rest'
         end
  end.

Fixpoint chain_end (c : fval) (l : list Trade) : ChainEnd :=
  match l with
  | [] => Flat c
  | b :: rest =>
      match rest with
      | [] => Held b
      | s :: rest' => chain_end (t_value s) rest'
      end
  end.

(** The state agrees with the end of its ledger. *)
Definition state_matches (c : fval) (s : State) : Prop :=
  match chain_end c (trades s) with
  | Flat c' => in_position s = false /\ cash s = c'
  | Held b =>
      in_position s = true
      /\ cash s = zero
      /\ position s = t_amount b
      /\ position_value s = t_value b
  end.

(** A finite number above 0. *)
Definition is_pos_num (a : fval) : bool :=
  match a with
  | Num q => Qlt_bool 0 q
  | _ => false
  end.

(** [a >= 0]: a number at least 0, or [+inf]. *)
Definition at_least_zero (a : fval) : bool :=
  match a with
  | Num q => Qle_bool 0 q
  | PInf => true
  | _ => false
  end.

(** Cash and position of a state are numbers of the right sign. *)
Definition state_positive (s : State) : Prop :=
  if in_position s
  then cash s = zero
       /\ is_pos_num (position s) = true
       /\ is_pos_num (position_value s) = true
  else is_pos_num (cash s) = true /\ position s = zero.

(** Example data: a feed that only rises. *)
Definition rising_feed : list Bar :=
  feed_from 0 (map Z.of_nat (seq 10 32)).

(** A record to read a ledger with. *)
Definition no_trade : Trade :=
  {| t_timestamp := 0; t_action := BUY; t_price := NaN; t_amount := NaN;
     t_value := NaN; t_rsi := NaN; t_rsi_ma := NaN; t_delta_rsi := NaN;
     t_delta_price := NaN; t_profit := None; t_profit_pct := None |}.

(** The ledger of the run on the first 28 bars of feed32. *)
Definition ledger28 : list Trade :=
  match run_backtest default_backtester (Some feed28) (Num 100) with
  | Finished l _ => l
  | _ => []
  end.

Definition final28 : fval :=
  match run_backtest default_backtester (Some feed28) (Num 100) with
  | Finished _ fv => fv
  | _ => NaN
  end.

(** The reading under which the profit of a SELL is the cash received
    minus quantity times entry price, the entry price being the price of the
    BUY before it. *)
Definition profit_by_entry_price (t_buy t_sell : Trade) : fval :=
  fsub (t_value t_sell) (fmul (t_amount t_sell) (t_price t_buy)).

Definition profit_is_by_entry_price (self : Backtester) (fetched : list Bar)
           (cap : fval) : Prop :=
  forall ledger fv i t_buy t_sell profit,
    run_backtest self (Some fetched) cap = Finished ledger fv ->
    nth_error ledger i = Some t_buy ->
    nth_error ledger (S i) = Some t_sell ->
    t_action t_buy = BUY ->
    t_profit t_sell = Some profit ->
    same_value profit (profit_by_entry_price t_buy t_sell).

(** The closes of feed32 lowered by 30: bar 27 closes at 0, above bar 26,
    and is bought; bar 28 closes below it and is sold. *)
Definition zero_price_feed : list Bar :=
  feed_from 0 (map (fun c => (c - 30)%Z) (closes28 ++ [20; 15; 25; 24]%Z)).

Definition zero_price_ledger : list Trade :=
  match run_backtest default_backtester (Some zero_price_feed) (Num 100) with
  | Finished l _ => l
  | _ => []
  end.

Definition zero_price_final : fval :=
  match run_backtest default_backtester (Some zero_price_feed) (Num 100) with
  | Finished _ fv => fv
  | _ => NaN
  end.

Definition zero_price_buy : Trade := nth 0 zero_price_ledger no_trade.
Definition zero_price_sell : Trade := nth 1 zero_price_ledger no_trade.

End Props.
Import Props.

(* ================================================================== *)
(** * Facts about the number model *)
(* ================================================================== *)

Section FloatFacts.

Lemma Qlt_bool_iff (a b : Q) : Qlt_bool a b = true <-> a < b.
Proof.
  unfold Qlt_bool. rewrite negb_true_iff.
  split; intro H.
  - destruct (Qlt_le_dec a b) as [Hlt | Hle]; [exact Hlt |].
    apply Qle_bool_iff in Hle. congruence.
  - destruct (Qle_bool b a) eqn:E; [| reflexivity].
    apply Qle_bool_iff in E. lra.
Qed.

Lemma Qlt_bool_false_iff (a b : Q) : Qlt_bool a b = false <-> b <= a.
Proof.
  unfold Qlt_bool. rewrite negb_false_iff. apply Qle_bool_iff.
Qed.

Lemma Qeq_bool_false_iff (a b : Q) : Qeq_bool a b = false <-> ~ a == b.
Proof.
  split; intro H.
  - intro E. apply Qeq_bool_iff in E. congruence.
  - destruct (Qeq_bool a b) eqn:E; [| reflexivity].
    apply Qeq_bool_iff in E. contradiction.
Qed.

Lemma Qlt_bool_sub_zero (a b : Q) : Qlt_bool 0 (a + - b) = Qlt_bool b a.
Proof.
  destruct (Qlt_bool b a) eqn:E.
  - apply Qlt_bool_iff in E. apply Qlt_bool_iff. lra.
  - apply Qlt_bool_false_iff in E. apply Qlt_bool_false_iff. lra.
Qed.

Lemma Qlt_bool_sub_zero_l (a b : Q) : Qlt_bool (a + - b) 0 = Qlt_bool a b.
Proof.
  destruct (Qlt_bool a b) eqn:E.
  - apply Qlt_bool_iff in E. apply Qlt_bool_iff. lra.
  - apply Qlt_bool_false_iff in E. apply Qlt_bool_false_iff. lra.
Qed.

(** [a - b > 0] is the same test as [a > b], also on the special values. *)
Lemma fgtb_fsub_zero (a b : fval) : fgtb (fsub a b) zero = fgtb a b.
Proof.
  destruct a, b; simpl; try reflexivity.
  apply Qlt_bool_sub_zero.
Qed.

(** [a - b < 0] is the same test as [a < b]. *)
Lemma fltb_fsub_zero (a b : fval) : fltb (fsub a b) zero = fltb a b.
Proof.
  destruct a, b; simpl; try reflexivity.
  apply Qlt_bool_sub_zero_l.
Qed.

Lemma fdiv_NaN_l (b : fval) : fdiv NaN b = NaN.
Proof. reflexivity. Qed.

Lemma fdiv_NaN_r (a : fval) : fdiv a NaN = NaN.
Proof. destruct a; reflexivity. Qed.

Lemma fadd_zero_r_eq (a : fval) : is_nan a = false -> feqb (fadd a zero) a = true.
Proof.
  destruct a; simpl; intro H; try reflexivity; try discriminate.
  apply Qeq_bool_iff. lra.
Qed.

End FloatFacts.

(* ================================================================== *)
(** * Facts about the series operations *)
(* ================================================================== *)

Section SeriesFacts.

Lemma diff_from_length (s : list fval) :
  forall prev, length (diff_from prev s) = length s.
Proof.
  induction s as [| x rest IH]; intro prev; simpl; [reflexivity |].
  now rewrite IH.
Qed.

Lemma where_length cond other (s : list fval) :
  length (where_ cond other s) = length s.
Proof. unfold where_. apply length_map. Qed.

Lemma rolling_mean_length (w : nat) (s : list fval) :
  length (rolling_mean w s) = length s.
Proof. unfold rolling_mean. now rewrite length_map, length_seq. Qed.

Lemma zip_with_length f (a b : list fval) :
  length a = length b -> length (zip_with f a b) = length a.
Proof.
  revert b. induction a as [| x a IH]; intros [| y b] H; simpl in *;
    try reflexivity; try discriminate.
  f_equal. apply IH. lia.
Qed.

Lemma zip_with_nth_error f (a b : list fval) (i : nat) :
  nth_error (zip_with f a b) i =
  match nth_error a i, nth_error b i with
  | Some x, Some y => Some (f x y)
  | _, _ => None
  end.
Proof.
  revert b i. induction a as [| x a IH]; intros [| y b] [| i]; simpl;
    try reflexivity.
  - destruct (nth_error a i); reflexivity.
  - apply IH.
Qed.

Lemma gain_series_length prices : length (gain_series prices) = length prices.
Proof.
  unfold gain_series, diff. now rewrite where_length, diff_from_length.
Qed.

Lemma loss_series_length prices : length (loss_series prices) = length prices.
Proof.
  unfold loss_series, diff.
  now rewrite length_map, where_length, diff_from_length.
Qed.

Lemma calculate_rsi_length prices w :
  length (calculate_rsi prices w) = length prices.
Proof.
  unfold calculate_rsi, avg_gain, avg_loss.
  rewrite length_map, zip_with_length; rewrite !rolling_mean_length.
  - apply gain_series_length.
  - now rewrite gain_series_length, loss_series_length.
Qed.

Lemma calculate_rsi_nth_error prices w i :
  nth_error (calculate_rsi prices w) i =
  match nth_error (avg_gain prices w) i, nth_error (avg_loss prices w) i with
  | Some g, Some l => Some (rsi_of_rs (fdiv g l))
  | _, _ => None
  end.
Proof.
  unfold calculate_rsi. rewrite nth_error_map, zip_with_nth_error.
  destruct (nth_error (avg_gain prices w) i);
    destruct (nth_error (avg_loss prices w) i); reflexivity.
Qed.

End SeriesFacts.

(* ================================================================== *)
(** * The decision rules *)
(* ================================================================== *)

Section DecisionRules.

Lemma buy_spec rsi_prev rsi_now rsi_ma_now current_price prev_price :
  Logic.buy rsi_prev rsi_now rsi_ma_now current_price prev_price =
  fgtb rsi_now rsi_ma_now && fgtb current_price prev_price.
Proof.
  unfold Logic.buy. cbv zeta. rewrite fgtb_fsub_zero.
  destruct (fgtb rsi_now rsi_ma_now && fgtb current_price prev_price);
    reflexivity.
Qed.

Lemma sell_spec rsi_prev rsi_now rsi_ma_now current_price prev_price :
  Logic.sell rsi_prev rsi_now rsi_ma_now current_price prev_price =
  fltb rsi_now rsi_ma_now && fltb current_price prev_price.
Proof.
  unfold Logic.sell. cbv zeta. rewrite fltb_fsub_zero.
  destruct (fltb rsi_now rsi_ma_now && fltb current_price prev_price);
    reflexivity.
Qed.

(** C3. The buy decision of the simulation, [not in_position and buy(...)],
    is true exactly when no position is held, [rsi_now > rsi_ma_now] and
    [price_now > price_prev]; hence it never fires while a position is held,
    nor when [rsi_now <= rsi_ma_now] or [price_now <= price_prev]. *)
Theorem buy_signal_iff (current_bar prev_bar : Row) (s : State) :
  buy_signal current_bar prev_bar s = true <->
  (in_position s = false
   /\ fgtb (rsi current_bar) (rsi_ma current_bar) = true
   /\ fgtb (close (row_bar current_bar)) (close (row_bar prev_bar)) = true).
Proof.
  unfold buy_signal. rewrite buy_spec.
  rewrite !andb_true_iff, negb_true_iff. tauto.
Qed.

(** C4. [check_for_sell] is false when not invested; when invested it is true
    exactly when the price is below 0.99 times the purchase price or the RSI
    is below its moving average, the stop-loss test coming first: once it
    holds the answer is true whatever the RSI values are. *)
Theorem check_for_sell_spec (rsi_now rsi_ma_now current_price purchase_price : fval)
        (is_invested : bool) :
  LogicStopLoss.check_for_sell rsi_now rsi_ma_now current_price purchase_price false
    = false
  /\ (LogicStopLoss.check_for_sell rsi_now rsi_ma_now current_price
        purchase_price true = true
      <-> (fltb current_price (fmul purchase_price (Num (99 # 100))) = true
           \/ fltb rsi_now rsi_ma_now = true))
  /\ LogicStopLoss.check_for_sell rsi_now rsi_ma_now current_price
       purchase_price is_invested
     = (if is_invested
        then if fltb current_price (fmul purchase_price (Num (99 # 100)))
             then true
             else fltb rsi_now rsi_ma_now
        else false).
Proof.
  unfold LogicStopLoss.check_for_sell. cbv zeta.
  repeat split.
  - simpl.
    destruct (fltb current_price (fmul purchase_price (Num (99 # 100))));
      destruct (fltb rsi_now rsi_ma_now); simpl; intro H;
      try discriminate; auto.
  - simpl. intros [H | H]; rewrite H; [reflexivity |].
    now rewrite orb_true_r.
  - destruct is_invested; simpl; [| reflexivity].
    destruct (fltb current_price (fmul purchase_price (Num (99 # 100))));
      destruct (fltb rsi_now rsi_ma_now); reflexivity.
Qed.

(** C5. Where the trailing average loss is zero and the trailing average
    gain is strictly positive, [calculate_rsi] gives the number 100: the
    division [gain / loss] yields an infinity, not an error. *)
Theorem rsi_zero_loss_is_100 (prices : list fval) (window i : nat) (g l : Q) :
  nth_error (avg_gain prices window) i = Some (Num g) ->
  nth_error (avg_loss prices window) i = Some (Num l) ->
  l == 0 -> 0 < g ->
  nth_error (calculate_rsi prices window) i = Some (Num 100).
Proof.
  intros Hg Hl Hl0 Hg0.
  rewrite calculate_rsi_nth_error, Hg, Hl.
  unfold rsi_of_rs. simpl.
  apply Qeq_bool_iff in Hl0. rewrite Hl0.
  assert (Hgz : Qeq_bool g 0 = false) by (apply Qeq_bool_false_iff; lra).
  rewrite Hgz.
  apply Qlt_bool_iff in Hg0. rewrite Hg0.
  reflexivity.
Qed.

Lemma rsi_zero_loss_is_100_witness :
  nth_error (calculate_rsi rising_prices 3) 2 = Some (Num 100).
Proof.
  apply (@rsi_zero_loss_is_100 rising_prices 3 2 (2 # 3) (0 # 3)).
  - reflexivity.
  - reflexivity.
  - reflexivity.
  - reflexivity.
Defined.

End DecisionRules.

(* ================================================================== *)
(** * The loop as a walk over consecutive rows *)
(* ================================================================== *)

Section LoopWalk.

Lemma iloc_current (pre : list Row) (prev cur : Row) (rest : list Row) :
  iloc (pre ++ prev :: cur :: rest) (S (length pre)) = Some cur.
Proof.
  unfold iloc. rewrite nth_error_app2 by lia.
  replace (S (length pre) - length pre)%nat with 1%nat by lia. reflexivity.
Qed.

Lemma iloc_previous (pre : list Row) (prev : Row) (rest : list Row) :
  iloc (pre ++ prev :: rest) (S (length pre) - 1) = Some prev.
Proof.
  unfold iloc. rewrite nth_error_app2 by lia.
  replace (S (length pre) - 1 - length pre)%nat with 0%nat by lia. reflexivity.
Qed.

Ltac walk_step pre prev cur rest IH :=
  simpl length; rewrite <- cons_seq;
  cbn [for_each loop_trace loop_states run_from trace_from states_from];
  rewrite iloc_current, iloc_previous;
  replace (pre ++ prev :: cur :: rest) with ((pre ++ [prev]) ++ cur :: rest)
    by (rewrite <- app_assoc; reflexivity);
  replace (S (S (length pre))) with (S (length (pre ++ [prev])))
    by (rewrite length_app; simpl; lia);
  first [apply IH | f_equal; apply IH].

Lemma for_each_walk (rest : list Row) :
  forall pre prev s,
    for_each (seq (S (length pre)) (length rest)) (pre ++ prev :: rest) s
    = Some (run_from prev rest s).
Proof.
  induction rest as [| cur rest IH]; intros pre prev s; [reflexivity |].
  walk_step pre prev cur rest IH.
Qed.

Lemma loop_trace_walk (rest : list Row) :
  forall pre prev s,
    loop_trace (seq (S (length pre)) (length rest)) (pre ++ prev :: rest) s
    = trace_from prev rest s.
Proof.
  induction rest as [| cur rest IH]; intros pre prev s; [reflexivity |].
  walk_step pre prev cur rest IH.
Qed.

Lemma loop_states_walk (rest : list Row) :
  forall pre prev s,
    loop_states (seq (S (length pre)) (length rest)) (pre ++ prev :: rest) s
    = states_from prev rest s.
Proof.
  induction rest as [| cur rest IH]; intros pre prev s; [reflexivity |].
  walk_step pre prev cur rest IH.
Qed.

(** The loop never reads outside the frame. *)
Lemma for_each_rows (rows : list Row) (s : State) :
  for_each (range 1 (length rows)) rows s =
  Some (match rows with [] => s | r0 :: rest => run_from r0 rest s end).
Proof.
  destruct rows as [| r0 rest]; [reflexivity |].
  unfold range. simpl length. rewrite Nat.sub_succ, Nat.sub_0_r.
  exact (for_each_walk rest [] r0 s).
Qed.

Lemma loop_trace_rows (rows : list Row) (s : State) :
  loop_trace (range 1 (length rows)) rows s =
  match rows with [] => [] | r0 :: rest => trace_from r0 rest s end.
Proof.
  destruct rows as [| r0 rest]; [reflexivity |].
  unfold range. simpl length. rewrite Nat.sub_succ, Nat.sub_0_r.
  exact (loop_trace_walk rest [] r0 s).
Qed.

Lemma loop_states_rows (rows : list Row) (s : State) :
  loop_states (range 1 (length rows)) rows s =
  match rows with [] => [s] | r0 :: rest => states_from r0 rest s end.
Proof.
  destruct rows as [| r0 rest]; [reflexivity |].
  unfold range. simpl length. rewrite Nat.sub_succ, Nat.sub_0_r.
  exact (loop_states_walk rest [] r0 s).
Qed.

Lemma trace_from_length (rest : list Row) :
  forall prev s, length (trace_from prev rest s) = length rest.
Proof.
  induction rest as [| cur rest IH]; intros prev s; simpl; [reflexivity |].
  now rewrite IH.
Qed.

Lemma trace_from_pos (rest : list Row) :
  forall prev s,
    map ev_pos (trace_from prev rest s) = map row_pos rest.
Proof.
  induction rest as [| cur rest IH]; intros prev s; simpl; [reflexivity |].
  rewrite IH. f_equal.
  unfold event_of.
  destruct (buy_signal cur prev s); [reflexivity |].
  destruct (sell_signal cur prev s); reflexivity.
Qed.

Lemma trace_from_bar (rest : list Row) :
  forall prev s,
    map ev_bar (trace_from prev rest s) = map row_bar rest.
Proof.
  induction rest as [| cur rest IH]; intros prev s; simpl; [reflexivity |].
  rewrite IH. f_equal.
  unfold event_of.
  destruct (buy_signal cur prev s); [reflexivity |].
  destruct (sell_signal cur prev s); reflexivity.
Qed.

Lemma last_cons_default (A : Type) (l : list A) :
  forall a d, last (a :: l) d = last l a.
Proof.
  induction l as [| b l IH]; intros a d; [reflexivity |].
  change (last (a :: b :: l) d) with (last (b :: l) d).
  now rewrite !IH.
Qed.

Lemma trace_from_app (l1 : list Row) :
  forall l2 prev s,
    trace_from prev (l1 ++ l2) s =
    trace_from prev l1 s ++ trace_from (last l1 prev) l2 (run_from prev l1 s).
Proof.
  induction l1 as [| cur l1 IH]; intros l2 prev s; [reflexivity |].
  rewrite last_cons_default.
  cbn [app trace_from run_from]. now rewrite IH.
Qed.

(** The states listed by [states_from] are the states reached after each
    prefix of the walk. *)
Lemma states_from_nth (rest : list Row) :
  forall prev s k st,
    nth_error (states_from prev rest s) k = Some st ->
    st = run_from prev (firstn k rest) s /\ (k <= length rest)%nat.
Proof.
  induction rest as [| cur rest IH]; intros prev s k st H.
  - destruct k as [| k]; simpl in H.
    + inversion H. split; [reflexivity | simpl; lia].
    + destruct k; discriminate.
  - destruct k as [| k]; simpl in H.
    + inversion H. split; [reflexivity | simpl; lia].
    + apply IH in H. destruct H as [H1 H2]. split; [exact H1 | simpl; lia].
Qed.

Lemma states_from_last (rest : list Row) :
  forall prev s,
    nth_error (states_from prev rest s) (length rest)
    = Some (run_from prev rest s).
Proof.
  induction rest as [| cur rest IH]; intros prev s; [reflexivity |].
  simpl. apply IH.
Qed.

(** Event [k] is the decision taken from state [k] and leads to state
    [k + 1]. *)
Lemma walk_step_nth (rest : list Row) :
  forall prev s k e,
    nth_error (trace_from prev rest s) k = Some e ->
    exists cur prv st,
      nth_error (states_from prev rest s) k = Some st
      /\ nth_error (states_from prev rest s) (S k)
         = Some (loop_body cur prv st)
      /\ e = event_of cur prv st
      /\ In cur rest
      /\ st = run_from prev (firstn k rest) s.
Proof.
  induction rest as [| cur rest IH]; intros prev s k e H.
  - destruct k; discriminate.
  - destruct k as [| k]; simpl in H.
    + inversion H. exists cur, prev, s. simpl.
      repeat split; try reflexivity.
      * destruct rest; reflexivity.
      * now left.
    + apply IH in H. destruct H as (c & p & st & H1 & H2 & H3 & H4 & H5).
      exists c, p, st. simpl. repeat split; auto.
Qed.

End LoopWalk.

(* ================================================================== *)
(** * Invariants of the trading variables *)
(* ================================================================== *)

Section Invariants.

Lemma run_from_invariant (P : State -> Prop) (Q : Row -> Prop) :
  (forall cur prev s, Q cur -> P s -> P (loop_body cur prev s)) ->
  forall rest prev s, Forall Q rest -> P s -> P (run_from prev rest s).
Proof.
  intros Hstep. induction rest as [| cur rest IH]; intros prev s HQ HP.
  - exact HP.
  - inversion HQ; subst. simpl. apply IH; [assumption |].
    apply Hstep; assumption.
Qed.

Lemma run_backtest_some (self : Backtester) (fetched : list Bar) (cap : fval) :
  fetched <> [] ->
  run_backtest self (Some fetched) cap =
  let bars := cleaned self fetched in
  let s := walk bars (initial_state cap) in
  let mark :=
    if in_position s
    then match iloc bars (length bars - 1) with
         | Some last_bar => Some (fmul (position s) (close (row_bar last_bar)))
         | None => None
         end
    else Some zero in
  match mark with
  | None => Raised IndexError
  | Some m =>
      match trades s with
      | [] => if is_zero cap then Raised ZeroDivisionError
              else Finished (trades s) (fadd (cash s) m)
      | _ :: _ => Finished (trades s) (fadd (cash s) m)
      end
  end.
Proof.
  intro Hne. unfold run_backtest.
  destruct fetched as [| b fetched]; [congruence |].
  cbn [length Nat.eqb]. fold (cleaned self (b :: fetched)).
  rewrite for_each_rows. reflexivity.
Qed.

Lemma run_backtest_ledger (self : Backtester) (fetched : list Bar) (cap : fval)
      (ledger : list Trade) (fv : fval) :
  run_backtest self (Some fetched) cap = Finished ledger fv ->
  ledger = trades (walk (cleaned self fetched) (initial_state cap)).
Proof.
  destruct fetched as [| b fetched]; [discriminate |].
  rewrite run_backtest_some by discriminate. cbv zeta.
  destruct (if in_position _ then _ else _); [| discriminate].
  destruct (trades _) eqn:E.
  - destruct (is_zero cap); [discriminate |]. intro H. now inversion H.
  - intro H. now inversion H.
Qed.

Lemma Forall_firstn_rows (Q : Row -> Prop) (l : list Row) :
  forall k, Forall Q l -> Forall Q (firstn k l).
Proof.
  induction l as [| x l IH]; intros [| k] H; simpl; auto.
  inversion H; subst. constructor; auto.
Qed.

(** Every listed state is the state after a prefix of the walk. *)
Lemma backtest_states_reach (self : Backtester) (fetched : list Bar) (cap : fval)
      (P : State -> Prop) (Q : Row -> Prop) :
  (forall cur prev s, Q cur -> P s -> P (loop_body cur prev s)) ->
  Forall Q (cleaned self fetched) ->
  P (initial_state cap) ->
  forall s, In s (backtest_states self fetched cap) -> P s.
Proof.
  intros Hstep HQ H0 s Hin.
  unfold backtest_states in Hin. cbv zeta in Hin.
  rewrite loop_states_rows in Hin.
  destruct (cleaned self fetched) as [| r0 rest].
  - destruct Hin as [<- | []]. exact H0.
  - apply In_nth_error in Hin. destruct Hin as [k Hk].
    apply states_from_nth in Hk. destruct Hk as [-> _].
    apply run_from_invariant with (Q := Q); try assumption.
    inversion HQ; subst. now apply Forall_firstn_rows.
Qed.

Lemma walk_invariant (P : State -> Prop) (Q : Row -> Prop) :
  (forall cur prev s, Q cur -> P s -> P (loop_body cur prev s)) ->
  forall rows s, Forall Q rows -> P s -> P (walk rows s).
Proof.
  intros Hstep [| r0 rest] s HQ HP; [exact HP |].
  inversion HQ; subst. unfold walk.
  now apply run_from_invariant with (Q := Q).
Qed.

Lemma Forall_trivial_rows (rows : list Row) : Forall (fun _ => True) rows.
Proof. apply Forall_forall. intros; exact I. Qed.

Lemma loop_body_exclusive cur prev s :
  exclusive s -> exclusive (loop_body cur prev s).
Proof.
  intros [H1 H2]. unfold loop_body. cbv zeta.
  destruct (buy_signal cur prev s).
  - split; simpl; [reflexivity | discriminate].
  - destruct (sell_signal cur prev s).
    + split; simpl; [discriminate | auto].
    + split; assumption.
Qed.

(** C10. In every state of the loop, before the first bar and after each
    bar: while a position is held the cash is 0, while none is held the
    position and its value are 0; so cash and position are never both
    nonzero. *)
Theorem cash_position_exclusive (self : Backtester) (fetched : list Bar)
        (cap : fval) (s : State) :
  In s (backtest_states self fetched cap) ->
  (in_position s = true -> cash s = zero)
  /\ (in_position s = false -> position s = zero /\ position_value s = zero)
  /\ (is_zero (cash s) || is_zero (position s) = true).
Proof.
  intro Hin.
  assert (He : exclusive s).
  { revert s Hin.
    apply backtest_states_reach with (Q := fun _ => True).
    - intros cur prev s _. apply loop_body_exclusive.
    - apply Forall_trivial_rows.
    - split; simpl; [discriminate | auto]. }
  destruct He as [H1 H2]. repeat split; try tauto.
  destruct (in_position s).
  - rewrite H1 by reflexivity. reflexivity.
  - destruct H2 as [H2 _]; [reflexivity |]. rewrite H2.
    apply orb_true_r.
Qed.

Lemma cash_position_exclusive_witness :
  in_position held_state = true /\ cash held_state = zero.
Proof.
  assert (Hin : In held_state
                   (backtest_states default_backtester feed32 (Num 100))).
  { vm_compute. right. left. reflexivity. }
  destruct (@cash_position_exclusive default_backtester feed32 (Num 100)
              held_state Hin) as [H1 _].
  split; [reflexivity | apply H1; reflexivity].
Defined.

End Invariants.

(* ================================================================== *)
(** * The trade ledger *)
(* ================================================================== *)

Section Ledger.

Lemma flip_neq (a : Action) : flip a <> a.
Proof. destruct a; discriminate. Qed.

Lemma action_eqb_eq (a b : Action) : action_eqb a b = true <-> a = b.
Proof. destruct a, b; simpl; split; congruence. Qed.

Lemma alternates_snoc (l : list Trade) :
  forall a t,
    alternates a l = true ->
    t_action t = expected_after a l ->
    alternates a (l ++ [t]) = true
    /\ expected_after a (l ++ [t]) = flip (t_action t).
Proof.
  induction l as [| x l IH]; intros a t Halt Hexp; simpl in *.
  - rewrite Hexp. split; [| reflexivity].
    rewrite andb_true_r. now apply action_eqb_eq.
  - apply andb_true_iff in Halt. destruct Halt as [Hx Hl].
    destruct (IH (flip a) t Hl Hexp) as [H1 H2].
    rewrite Hx, H1. split; [reflexivity | exact H2].
Qed.

Lemma alternates_adjacent (l : list Trade) :
  forall a i t1 t2,
    alternates a l = true ->
    nth_error l i = Some t1 ->
    nth_error l (S i) = Some t2 ->
    t_action t1 <> t_action t2.
Proof.
  induction l as [| x l IH]; intros a i t1 t2 Halt H1 H2.
  - destruct i; discriminate.
  - simpl in Halt. apply andb_true_iff in Halt. destruct Halt as [Hx Hl].
    destruct i as [| i].
    + simpl in H1, H2. inversion H1; subst x.
      destruct l as [| y l]; [discriminate |].
      simpl in H2. inversion H2; subst y.
      simpl in Hl. apply andb_true_iff in Hl. destruct Hl as [Hy _].
      apply action_eqb_eq in Hx. apply action_eqb_eq in Hy.
      rewrite Hx, Hy. intro E. symmetry in E. exact (flip_neq E).
    + simpl in H1. exact (IH (flip a) i t1 t2 Hl H1 H2).
Qed.

Lemma alternates_head (l : list Trade) (a : Action) (t : Trade) :
  alternates a l = true -> hd_error l = Some t -> t_action t = a.
Proof.
  destruct l as [| x l]; simpl; [discriminate |].
  intros H E. inversion E; subst x.
  apply andb_true_iff in H. now apply action_eqb_eq.
Qed.

(** What one iteration does to the ledger. *)
Lemma loop_body_cases (cur prev : Row) (s : State) :
  (buy_signal cur prev s = true
   /\ in_position s = false
   /\ event_of cur prev s
      = mkEvent (row_pos cur) (row_bar cur) (Some BUY)
                (Some (buy_record cur prev s))
   /\ loop_body cur prev s
      = {| cash := zero;
           position := fdiv (cash s) (close (row_bar cur));
           position_value := cash s;
           in_position := true;
           trades := trades s ++ [buy_record cur prev s] |})
  \/ (sell_signal cur prev s = true
      /\ in_position s = true
      /\ event_of cur prev s
         = mkEvent (row_pos cur) (row_bar cur) (Some SELL)
                   (Some (sell_record cur prev s))
      /\ loop_body cur prev s
         = {| cash := fmul (position s) (close (row_bar cur));
              position := zero;
              position_value := zero;
              in_position := false;
              trades := trades s ++ [sell_record cur prev s] |})
  \/ (event_of cur prev s = mkEvent (row_pos cur) (row_bar cur) None None
      /\ loop_body cur prev s = s).
Proof.
  unfold loop_body, event_of. cbv zeta.
  destruct (buy_signal cur prev s) eqn:Eb.
  - left. repeat split.
    unfold buy_signal in Eb. apply andb_true_iff in Eb.
    destruct Eb as [Eb _]. now apply negb_true_iff in Eb.
  - destruct (sell_signal cur prev s) eqn:Es.
    + right; left. repeat split.
      unfold sell_signal in Es. apply andb_true_iff in Es. tauto.
    + right; right. split; reflexivity.
Qed.

Lemma loop_body_ledger_inv (cur prev : Row) (s : State) :
  ledger_inv s -> ledger_inv (loop_body cur prev s).
Proof.
  intros [Halt Hexp].
  destruct (loop_body_cases cur prev s)
    as [(_ & Hpos & _ & ->) | [(_ & Hpos & _ & ->) | (_ & ->)]].
  - rewrite Hpos in Hexp.
    destruct (@alternates_snoc (trades s) BUY (buy_record cur prev s) Halt)
      as [H1 H2]; [now rewrite Hexp |].
    split; simpl; assumption.
  - rewrite Hpos in Hexp.
    destruct (@alternates_snoc (trades s) BUY (sell_record cur prev s) Halt)
      as [H1 H2]; [now rewrite Hexp |].
    split; simpl; assumption.
  - split; assumption.
Qed.

Lemma states_from_head (rest : list Row) (prev : Row) (s : State) :
  nth_error (states_from prev rest s) 0 = Some s.
Proof. destruct rest; reflexivity. Qed.

Lemma states_from_succ (rest : list Row) :
  forall prev s k st st',
    nth_error (states_from prev rest s) k = Some st ->
    nth_error (states_from prev rest s) (S k) = Some st' ->
    exists cur prv, st' = loop_body cur prv st /\ In cur rest.
Proof.
  induction rest as [| cur rest IH]; intros prev s k st st' H1 H2.
  - destruct k; discriminate.
  - destruct k as [| k].
    + simpl in H1. inversion H1; subst st.
      change (nth_error (states_from cur rest (loop_body cur prev s)) 0
              = Some st') in H2.
      rewrite states_from_head in H2. inversion H2.
      exists cur, prev. split; [reflexivity | now left].
    + change (nth_error (states_from cur rest (loop_body cur prev s)) k
              = Some st) in H1.
      change (nth_error (states_from cur rest (loop_body cur prev s)) (S k)
              = Some st') in H2.
      destruct (IH _ _ _ _ _ H1 H2) as (c & p & E & Hin).
      exists c, p. split; [exact E | now right].
Qed.

Lemma backtest_states_succ (self : Backtester) (fetched : list Bar) (cap : fval)
      (k : nat) (st st' : State) :
  nth_error (backtest_states self fetched cap) k = Some st ->
  nth_error (backtest_states self fetched cap) (S k) = Some st' ->
  exists cur prv, st' = loop_body cur prv st /\ In cur (cleaned self fetched).
Proof.
  unfold backtest_states. cbv zeta. rewrite loop_states_rows.
  destruct (cleaned self fetched) as [| r0 rest]; intros H1 H2.
  - destruct k; discriminate.
  - destruct (states_from_succ _ _ _ _ H1 H2) as (c & p & E & Hin).
    exists c, p. split; [exact E | now right].
Qed.

(** C6. A ledger returned by a run alternates BUY, SELL, BUY, ...: its first
    record, if any, is a BUY and no two neighbours have the same action.  In
    the loop, each iteration leaves the ledger as it is or appends one
    record, a BUY only from a state with [in_position = false] and a SELL
    only from a state with [in_position = true]. *)
Theorem ledger_alternates (self : Backtester) (fetched : list Bar) (cap : fval)
        (ledger : list Trade) (fv : fval) :
  run_backtest self (Some fetched) cap = Finished ledger fv ->
  alternates BUY ledger = true
  /\ (forall t, hd_error ledger = Some t -> t_action t = BUY)
  /\ (forall i t1 t2,
         nth_error ledger i = Some t1 ->
         nth_error ledger (S i) = Some t2 ->
         t_action t1 <> t_action t2)
  /\ (forall k st st',
         nth_error (backtest_states self fetched cap) k = Some st ->
         nth_error (backtest_states self fetched cap) (S k) = Some st' ->
         trades st' = trades st
         \/ exists t,
             trades st' = trades st ++ [t]
             /\ ((t_action t = BUY /\ in_position st = false)
                 \/ (t_action t = SELL /\ in_position st = true))).
Proof.
  intro Hrun. apply run_backtest_ledger in Hrun.
  assert (Halt : alternates BUY ledger = true).
  { subst ledger.
    apply (@walk_invariant ledger_inv (fun _ => True)).
    - intros cur prev s _. apply loop_body_ledger_inv.
    - apply Forall_trivial_rows.
    - split; reflexivity. }
  split; [exact Halt |].
  split; [intros t Ht; exact (@alternates_head ledger BUY t Halt Ht) |].
  split; [intros i t1 t2; exact (@alternates_adjacent ledger BUY i t1 t2 Halt) |].
  intros k st st' H1 H2.
  destruct (backtest_states_succ _ _ _ _ H1 H2) as (cur & prv & -> & _).
  destruct (loop_body_cases cur prv st)
    as [(_ & Hpos & _ & ->) | [(_ & Hpos & _ & ->) | (_ & ->)]].
  - right. exists (buy_record cur prv st). simpl. auto.
  - right. exists (sell_record cur prv st). simpl. auto.
  - now left.
Qed.

Lemma ledger_alternates_witness :
  alternates BUY ledger32 = true /\ length ledger32 = 2%nat.
Proof.
  assert (H : run_backtest default_backtester (Some feed32) (Num 100)
              = Finished ledger32 final32) by (vm_compute; reflexivity).
  split.
  - exact (proj1 (@ledger_alternates default_backtester feed32 (Num 100)
                    ledger32 final32 H)).
  - reflexivity.
Defined.

End Ledger.

(* ================================================================== *)
(** * Liquidation *)
(* ================================================================== *)

Section Liquidation.

Lemma loop_body_entry_inv (cur prev : Row) (s : State) :
  entry_inv s -> entry_inv (loop_body cur prev s).
Proof.
  intro Hs.
  destruct (loop_body_cases cur prev s)
    as [(_ & _ & _ & ->) | [(_ & _ & _ & ->) | (_ & ->)]].
  - intros _. exists (trades s), (buy_record cur prev s). simpl.
    repeat split.
  - simpl. intro H. discriminate.
  - exact Hs.
Qed.

Lemma profit_fields_snoc (l : list Trade) (t : Trade) :
  profit_fields l ->
  ((t_action t = BUY -> t_profit t = None /\ t_profit_pct t = None)
   /\ (t_action t = SELL -> t_profit t <> None /\ t_profit_pct t <> None)) ->
  profit_fields (l ++ [t]).
Proof.
  intros Hl Ht x Hin. apply in_app_or in Hin.
  destruct Hin as [Hin | [<- | []]]; [now apply Hl | exact Ht].
Qed.

Lemma loop_body_profit_fields (cur prev : Row) (s : State) :
  profit_fields (trades s) -> profit_fields (trades (loop_body cur prev s)).
Proof.
  intro Hs.
  destruct (loop_body_cases cur prev s)
    as [(_ & _ & _ & ->) | [(_ & _ & _ & ->) | (_ & ->)]]; simpl.
  - apply profit_fields_snoc; [exact Hs |]. simpl.
    split; [auto | discriminate].
  - apply profit_fields_snoc; [exact Hs |]. simpl.
    split; [discriminate | intros _; split; discriminate].
  - exact Hs.
Qed.

Lemma assemble_In_bar (bars : list Bar) :
  forall pos rsi_col ma_col r,
    In r (assemble pos bars rsi_col ma_col) -> In (row_bar r) bars.
Proof.
  induction bars as [| b bars IH]; intros pos rsi_col ma_col r H;
    [contradiction |].
  destruct rsi_col as [| x rsi_col]; [contradiction |].
  destruct ma_col as [| m ma_col]; [contradiction |].
  simpl in H. destruct H as [<- | H]; [now left |].
  right. exact (IH _ _ _ _ H).
Qed.

Lemma cleaned_In_bar (self : Backtester) (fetched : list Bar) (r : Row) :
  In r (cleaned self fetched) -> In (row_bar r) fetched.
Proof.
  unfold cleaned, dropna. intro H. apply filter_In in H. destruct H as [H _].
  unfold add_indicators in H. exact (assemble_In_bar _ _ _ _ _ H).
Qed.

Lemma backtest_step (self : Backtester) (fetched : list Bar) (cap : fval)
      (k : nat) (e : Event) :
  nth_error (backtest_trace self fetched cap) k = Some e ->
  exists cur prv st,
    nth_error (backtest_states self fetched cap) k = Some st
    /\ nth_error (backtest_states self fetched cap) (S k)
       = Some (loop_body cur prv st)
    /\ e = event_of cur prv st
    /\ In cur (cleaned self fetched).
Proof.
  unfold backtest_trace, backtest_states. cbv zeta.
  rewrite loop_trace_rows, loop_states_rows.
  destruct (cleaned self fetched) as [| r0 rest]; intro H.
  - destruct k; discriminate.
  - apply walk_step_nth in H.
    destruct H as (c & p & st & H1 & H2 & H3 & H4 & _).
    exists c, p, st. repeat split; auto. now right.
Qed.

Lemma run_from_app (l1 : list Row) :
  forall l2 prev s,
    run_from prev (l1 ++ l2) s = run_from (last l1 prev) l2 (run_from prev l1 s).
Proof.
  induction l1 as [| cur l1 IH]; intros l2 prev s; [reflexivity |].
  rewrite last_cons_default. cbn [app run_from]. apply IH.
Qed.

(** The loop only appends to the ledger. *)
Lemma run_from_trades_grow (rest : list Row) :
  forall prev s, exists more, trades (run_from prev rest s) = trades s ++ more.
Proof.
  induction rest as [| cur rest IH]; intros prev s; simpl.
  - exists []. now rewrite app_nil_r.
  - destruct (IH cur (loop_body cur prev s)) as [more E]. rewrite E.
    destruct (loop_body_cases cur prev s)
      as [(_ & _ & _ & ->) | [(_ & _ & _ & ->) | (_ & ->)]]; simpl.
    + eexists. now rewrite <- app_assoc.
    + eexists. now rewrite <- app_assoc.
    + now exists more.
Qed.

(** The ledger of every state of the loop is the beginning of the ledger
    the loop ends with. *)
Lemma backtest_state_prefix (self : Backtester) (fetched : list Bar)
      (cap : fval) (k : nat) (s : State) :
  nth_error (backtest_states self fetched cap) k = Some s ->
  exists more,
    trades (walk (cleaned self fetched) (initial_state cap))
    = trades s ++ more.
Proof.
  unfold backtest_states. cbv zeta. rewrite loop_states_rows.
  destruct (cleaned self fetched) as [| r0 rest]; intro H.
  - destruct k as [| k]; [| destruct k; discriminate].
    injection H as <-. exists []. reflexivity.
  - apply states_from_nth in H. destruct H as [-> _].
    unfold walk.
    replace (run_from r0 rest (initial_state cap))
      with (run_from r0 (firstn k rest ++ skipn k rest) (initial_state cap))
      by (now rewrite firstn_skipn).
    rewrite run_from_app. apply run_from_trades_grow.
Qed.

(** C7 (as the code has it).  When the loop takes the SELL branch at a bar,
    a position is held and the last record of the ledger is the BUY that
    opened it, with the quantity held, the cash committed and
    [quantity = cash committed / entry price].  The cash becomes quantity
    times the bar's close, quantity and position value are reset to 0, and
    exactly one SELL record is appended right after that BUY.  Its profit is
    the new cash minus the cash committed at the BUY ([position_value]), and
    its profit_pct is that profit over the cash committed, times 100.  In
    the returned ledger the profit fields are set on the SELL records and on
    no BUY record. *)
Theorem sell_liquidates_position (self : Backtester) (fetched : list Bar)
        (cap : fval) (ledger : list Trade) (fv : fval)
        (k : nat) (e : Event) (st st' : State) :
  run_backtest self (Some fetched) cap = Finished ledger fv ->
  nth_error (backtest_trace self fetched cap) k = Some e ->
  nth_error (backtest_states self fetched cap) k = Some st ->
  nth_error (backtest_states self fetched cap) (S k) = Some st' ->
  ev_action e = Some SELL ->
  exists (earlier : list Trade) (t_buy t_sell : Trade) (later : list Trade),
    in_position st = true
    /\ trades st = earlier ++ [t_buy]
    /\ t_action t_buy = BUY
    /\ t_amount t_buy = position st
    /\ t_value t_buy = position_value st
    /\ t_amount t_buy = fdiv (t_value t_buy) (t_price t_buy)
    /\ cash st' = fmul (position st) (close (ev_bar e))
    /\ position st' = zero
    /\ position_value st' = zero
    /\ in_position st' = false
    /\ trades st' = trades st ++ [t_sell]
    /\ ev_trade e = Some t_sell
    /\ t_action t_sell = SELL
    /\ t_price t_sell = close (ev_bar e)
    /\ t_amount t_sell = position st
    /\ t_value t_sell = cash st'
    /\ t_profit t_sell = Some (fsub (cash st') (position_value st))
    /\ t_profit_pct t_sell
       = Some (fmul (fdiv (fsub (cash st') (position_value st))
                          (position_value st)) hundred)
    /\ ledger = earlier ++ t_buy :: t_sell :: later
    /\ profit_fields ledger.
Proof.
  intros Hrun He Hst Hst' Hsell.
  apply run_backtest_ledger in Hrun.
  destruct (backtest_step _ _ _ _ He) as (cur & prv & st0 & H1 & H2 & H3 & Hin).
  rewrite Hst in H1. injection H1 as <-.
  destruct (backtest_state_prefix _ _ _ _ Hst') as [later Hlater].
  rewrite Hst' in H2. injection H2 as ->.
  assert (Hentry : entry_inv st).
  { apply (@backtest_states_reach self fetched cap entry_inv (fun _ => True)).
    - intros c p s _. apply loop_body_entry_inv.
    - apply Forall_trivial_rows.
    - intro H. discriminate.
    - exact (nth_error_In _ _ Hst). }
  assert (Hfields : profit_fields ledger).
  { subst ledger.
    apply (@walk_invariant (fun s => profit_fields (trades s))
             (fun _ => True)).
    - intros c p s _. apply loop_body_profit_fields.
    - apply Forall_trivial_rows.
    - intros t []. }
  destruct (loop_body_cases cur prv st)
    as [(_ & _ & Hev & _) | [(_ & Hpos & Hev & Hbody) | (Hev & _)]];
    rewrite Hev in H3; subst e; simpl in Hsell; try discriminate.
  destruct (Hentry Hpos) as (earlier & t_buy & Htr & Hact & Hamt & Hval & Hq).
  rewrite Hbody in Hlater |- *. simpl in Hlater |- *.
  exists earlier, t_buy, (sell_record cur prv st), later.
  repeat match goal with |- _ /\ _ => split end; auto.
  rewrite Hrun, Hlater, Htr, <- !app_assoc. reflexivity.
Qed.

Lemma sell_liquidates_position_witness :
  in_position held_state = true /\ position sold_state = zero.
Proof.
  assert (Hr : run_backtest default_backtester (Some feed32) (Num 100)
               = Finished ledger32 final32) by (vm_compute; reflexivity).
  assert (He : nth_error (backtest_trace default_backtester feed32 (Num 100)) 1
               = Some sell_event) by (vm_compute; reflexivity).
  assert (H1 : nth_error (backtest_states default_backtester feed32 (Num 100)) 1
               = Some held_state) by (vm_compute; reflexivity).
  assert (H2 : nth_error (backtest_states default_backtester feed32 (Num 100)) 2
               = Some sold_state) by (vm_compute; reflexivity).
  assert (Hs : ev_action sell_event = Some SELL) by (vm_compute; reflexivity).
  destruct (@sell_liquidates_position default_backtester feed32 (Num 100)
              ledger32 final32 1 sell_event held_state sold_state
              Hr He H1 H2 Hs)
    as (earlier & t_buy & t_sell & later & Hpos & _ & _ & _ & _ & _ & _ & Hz & _).
  exact (conj Hpos Hz).
Defined.

(** C7 (as stated) fails where the entry price is 0: with the closes of the
    32-bar feed lowered by 30, bar 27 is bought at 0 with capital 100, the
    quantity is [100 / 0 = +inf], and bar 28 is sold at -10.  The code
    records the profit [-inf - 100 = -inf]; cash minus quantity times entry
    price is [-inf - (inf * 0)], which is NaN. *)
Lemma profit_not_by_entry_price :
  t_price zero_price_buy = Num 0
  /\ t_amount zero_price_buy = PInf
  /\ t_value zero_price_buy = Num 100
  /\ t_profit zero_price_sell = Some NInf
  /\ profit_by_entry_price zero_price_buy zero_price_sell = NaN
  /\ ~ profit_is_by_entry_price default_backtester zero_price_feed (Num 100).
Proof.
  repeat match goal with |- _ /\ _ => split end;
    try (vm_compute; reflexivity).
  intro H.
  assert (Hr : run_backtest default_backtester (Some zero_price_feed) (Num 100)
               = Finished zero_price_ledger zero_price_final)
    by (vm_compute; reflexivity).
  assert (H0 : nth_error zero_price_ledger 0 = Some zero_price_buy)
    by (vm_compute; reflexivity).
  assert (H1 : nth_error zero_price_ledger 1 = Some zero_price_sell)
    by (vm_compute; reflexivity).
  assert (Ha : t_action zero_price_buy = BUY) by (vm_compute; reflexivity).
  assert (Hp : t_profit zero_price_sell = Some NInf)
    by (vm_compute; reflexivity).
  pose proof (H _ _ _ _ _ _ Hr H0 H1 Ha Hp) as E.
  vm_compute in E. exact E.
Qed.

End Liquidation.

(* ================================================================== *)
(** * Indicators and decisions depend on the past only *)
(* ================================================================== *)

Section NoLookAhead.

Lemma diff_from_app (l1 l2 : list fval) :
  forall prev,
    diff_from prev (l1 ++ l2) = diff_from prev l1 ++ diff_from (last l1 prev) l2.
Proof.
  induction l1 as [| x l1 IH]; intro prev; [reflexivity |].
  rewrite last_cons_default. cbn [app diff_from]. now rewrite IH.
Qed.

Lemma rolling_mean_app (w : nat) (l1 l2 : list fval) :
  rolling_mean w (l1 ++ l2) =
  rolling_mean w l1
  ++ map (fun i => window_mean w (firstn (S i) (l1 ++ l2)))
         (seq (length l1) (length l2)).
Proof.
  unfold rolling_mean. rewrite length_app, seq_app, map_app, Nat.add_0_l.
  f_equal. apply map_ext_in. intros i Hi. apply in_seq in Hi.
  rewrite firstn_app.
  replace (S i - length l1)%nat with 0%nat by lia.
  now rewrite firstn_O, app_nil_r.
Qed.

Lemma zip_with_app f (a1 b1 a2 b2 : list fval) :
  length a1 = length b1 ->
  zip_with f (a1 ++ a2) (b1 ++ b2) = zip_with f a1 b1 ++ zip_with f a2 b2.
Proof.
  revert b1. induction a1 as [| x a1 IH]; intros [| y b1] H;
    simpl in *; try discriminate; [reflexivity |].
  f_equal. apply IH. lia.
Qed.

Lemma gain_series_app (p1 p2 : list fval) :
  exists r, gain_series (p1 ++ p2) = gain_series p1 ++ r.
Proof.
  unfold gain_series, diff, where_. rewrite diff_from_app, map_app.
  eexists. reflexivity.
Qed.

Lemma loss_series_app (p1 p2 : list fval) :
  exists r, loss_series (p1 ++ p2) = loss_series p1 ++ r.
Proof.
  unfold loss_series, diff, where_. rewrite diff_from_app, !map_app.
  eexists. reflexivity.
Qed.

(** The RSI of a bar is not changed by the bars that follow it. *)
Lemma calculate_rsi_app (p1 p2 : list fval) (w : nat) :
  exists r, calculate_rsi (p1 ++ p2) w = calculate_rsi p1 w ++ r.
Proof.
  unfold calculate_rsi, avg_gain, avg_loss. cbv zeta.
  destruct (gain_series_app p1 p2) as [g Hg].
  destruct (loss_series_app p1 p2) as [l Hl].
  rewrite Hg, Hl, !rolling_mean_app.
  rewrite zip_with_app, map_app.
  - eexists. reflexivity.
  - now rewrite !rolling_mean_length, gain_series_length, loss_series_length.
Qed.

Lemma assemble_app (bars1 : list Bar) :
  forall pos bars2 rsi1 rsi2 ma1 ma2,
    length rsi1 = length bars1 ->
    length ma1 = length bars1 ->
    assemble pos (bars1 ++ bars2) (rsi1 ++ rsi2) (ma1 ++ ma2) =
    assemble pos bars1 rsi1 ma1
    ++ assemble (pos + length bars1) bars2 rsi2 ma2.
Proof.
  induction bars1 as [| b bars1 IH]; intros pos bars2 rsi1 rsi2 ma1 ma2 H1 H2.
  - destruct rsi1; [| discriminate]. destruct ma1; [| discriminate].
    simpl. now rewrite Nat.add_0_r.
  - destruct rsi1 as [| r rsi1]; [discriminate |].
    destruct ma1 as [| m ma1]; [discriminate |].
    simpl in *. f_equal. rewrite IH by lia. f_equal. f_equal. lia.
Qed.

Lemma assemble_pos (bars : list Bar) :
  forall pos rsi_col ma_col,
    map row_pos (assemble pos bars rsi_col ma_col)
    = seq pos (length (assemble pos bars rsi_col ma_col)).
Proof.
  induction bars as [| b bars IH]; intros pos rsi_col ma_col; [reflexivity |].
  destruct rsi_col as [| r rsi_col]; [reflexivity |].
  destruct ma_col as [| m ma_col]; [reflexivity |].
  simpl. now rewrite IH.
Qed.

Lemma assemble_length_le (bars : list Bar) :
  forall pos rsi_col ma_col,
    (length (assemble pos bars rsi_col ma_col) <= length bars)%nat.
Proof.
  induction bars as [| b bars IH]; intros pos rsi_col ma_col; [simpl; lia |].
  destruct rsi_col as [| r rsi_col]; [simpl; lia |].
  destruct ma_col as [| m ma_col]; [simpl; lia |].
  simpl. specialize (IH (S pos) rsi_col ma_col). lia.
Qed.

Lemma assemble_pos_bounds (bars : list Bar) pos rsi_col ma_col (r : Row) :
  In r (assemble pos bars rsi_col ma_col) ->
  (pos <= row_pos r < pos + length bars)%nat.
Proof.
  intro H. apply (in_map row_pos) in H. rewrite assemble_pos in H.
  apply in_seq in H.
  pose proof (assemble_length_le bars pos rsi_col ma_col). lia.
Qed.

Lemma add_indicators_app (self : Backtester) (b1 b2 : list Bar) :
  exists later,
    add_indicators self (b1 ++ b2) = add_indicators self b1 ++ later
    /\ Forall (fun r => (length b1 <= row_pos r)%nat) later.
Proof.
  unfold add_indicators. cbv zeta. rewrite map_app.
  destruct (calculate_rsi_app (map close b1) (map close b2) (rsi_window self))
    as [r Hr].
  rewrite Hr, rolling_mean_app.
  rewrite assemble_app.
  - eexists. split; [reflexivity |].
    apply Forall_forall. intros x Hx.
    apply assemble_pos_bounds in Hx. simpl in Hx. lia.
  - now rewrite calculate_rsi_length, length_map.
  - now rewrite rolling_mean_length, calculate_rsi_length, length_map.
Qed.

Lemma cleaned_pos_lt (self : Backtester) (fetched : list Bar) (r : Row) :
  In r (cleaned self fetched) -> (row_pos r < length fetched)%nat.
Proof.
  unfold cleaned, dropna. intro H. apply filter_In in H. destruct H as [H _].
  unfold add_indicators in H. apply assemble_pos_bounds in H. lia.
Qed.

Lemma cleaned_app (self : Backtester) (b1 b2 : list Bar) :
  exists later,
    cleaned self (b1 ++ b2) = cleaned self b1 ++ later
    /\ Forall (fun r => (length b1 <= row_pos r)%nat) later.
Proof.
  destruct (add_indicators_app self b1 b2) as (later & E & Hl).
  unfold cleaned, dropna. rewrite E, filter_app.
  eexists. split; [reflexivity |].
  apply Forall_forall. intros r Hr. apply filter_In in Hr.
  rewrite Forall_forall in Hl. apply Hl. tauto.
Qed.

Lemma backtest_trace_pos (self : Backtester) (fetched : list Bar) (cap : fval) :
  map ev_pos (backtest_trace self fetched cap)
  = tl (map row_pos (cleaned self fetched)).
Proof.
  unfold backtest_trace. cbv zeta. rewrite loop_trace_rows.
  destruct (cleaned self fetched) as [| r0 rest]; [reflexivity |].
  simpl. apply trace_from_pos.
Qed.

Lemma backtest_trace_pos_lt (self : Backtester) (fetched : list Bar)
      (cap : fval) (e : Event) :
  In e (backtest_trace self fetched cap) -> (ev_pos e < length fetched)%nat.
Proof.
  intro H. apply (in_map ev_pos) in H. rewrite backtest_trace_pos in H.
  destruct (cleaned self fetched) as [| r0 rest] eqn:E; [contradiction |].
  simpl in H. apply in_map_iff in H. destruct H as (r & <- & Hr).
  apply (@cleaned_pos_lt self). rewrite E. now right.
Qed.

(** The decisions taken on a prefix of the feed are the first decisions
    taken on the whole feed; the later ones concern later bars. *)
Lemma backtest_trace_app (self : Backtester) (b1 b2 : list Bar) (cap : fval) :
  exists later,
    backtest_trace self (b1 ++ b2) cap = backtest_trace self b1 cap ++ later
    /\ Forall (fun e => (length b1 <= ev_pos e)%nat) later.
Proof.
  destruct (cleaned_app self b1 b2) as (rows2 & E & Hl).
  unfold backtest_trace. cbv zeta. rewrite !loop_trace_rows, E.
  destruct (cleaned self b1) as [| r0 rest].
  - simpl. eexists. split; [reflexivity |].
    destruct rows2 as [| r1 rows2]; [constructor |].
    apply Forall_forall. intros e He.
    apply (in_map ev_pos) in He. rewrite trace_from_pos in He.
    apply in_map_iff in He. destruct He as (r & <- & Hr).
    rewrite Forall_forall in Hl. apply Hl. now right.
  - simpl. rewrite trace_from_app.
    eexists. split; [reflexivity |].
    apply Forall_forall. intros e He.
    apply (in_map ev_pos) in He. rewrite trace_from_pos in He.
    apply in_map_iff in He. destruct He as (r & <- & Hr).
    rewrite Forall_forall in Hl. now apply Hl.
Qed.

Lemma find_app_none (A : Type) (f : A -> bool) (l1 l2 : list A) :
  Forall (fun x => f x = false) l2 -> find f (l1 ++ l2) = find f l1.
Proof.
  intro H. induction l1 as [| x l1 IH]; simpl.
  - induction H as [| y l2 Hy _ IH2]; simpl; [reflexivity |].
    now rewrite Hy.
  - destruct (f x); [reflexivity | exact IH].
Qed.

Lemma decision_at_prefix (self : Backtester) (b1 b2 : list Bar) (cap : fval)
      (i : nat) :
  (i < length b1)%nat ->
  decision_at self (b1 ++ b2) cap i = decision_at self b1 cap i.
Proof.
  intro Hi. unfold decision_at.
  destruct (backtest_trace_app self b1 b2 cap) as (later & -> & Hl).
  apply find_app_none.
  apply Forall_forall. intros e He.
  rewrite Forall_forall in Hl. specialize (Hl e He).
  apply Nat.eqb_neq. lia.
Qed.

(** C9. No look-ahead: if two feeds agree on the bars [0..i], the runs on
    them take the same decision at bar [i] and emit the same record there,
    however the later bars differ and whether or not they exist. *)
Theorem no_look_ahead (self : Backtester) (bars1 bars2 : list Bar) (cap : fval)
        (i : nat) :
  firstn (S i) bars1 = firstn (S i) bars2 ->
  decision_at self bars1 cap i = decision_at self bars2 cap i.
Proof.
  intro H.
  destruct (Nat.lt_ge_cases i (length bars1)) as [H1 | H1];
    destruct (Nat.lt_ge_cases i (length bars2)) as [H2 | H2].
  - rewrite <- (firstn_skipn (S i) bars1), <- (firstn_skipn (S i) bars2).
    rewrite !decision_at_prefix by (rewrite length_firstn; lia).
    now rewrite H.
  - rewrite (firstn_all2 (n := S i) bars2) in H by lia.
    assert (L : length (firstn (S i) bars1) = length bars2) by now rewrite H.
    rewrite length_firstn in L. lia.
  - rewrite (firstn_all2 (n := S i) bars1) in H by lia.
    assert (L : length bars1 = length (firstn (S i) bars2)) by now rewrite H.
    rewrite length_firstn in L. lia.
  - rewrite (firstn_all2 (n := S i) bars1) in H by lia.
    rewrite (firstn_all2 (n := S i) bars2) in H by lia.
    now rewrite H.
Qed.

Lemma no_look_ahead_witness :
  decision_at default_backtester feed28 (Num 100) 27
  = decision_at default_backtester feed32 (Num 100) 27.
Proof.
  apply (@no_look_ahead default_backtester feed28 feed32 (Num 100) 27).
  reflexivity.
Defined.

End NoLookAhead.

(* ================================================================== *)
(** * Which bars the loop visits *)
(* ================================================================== *)

Section Visits.

Lemma StronglySorted_seq (len : nat) :
  forall start, StronglySorted lt (seq start len).
Proof.
  induction len as [| len IH]; intro start; simpl; constructor.
  - apply IH.
  - apply Forall_forall. intros x Hx. apply in_seq in Hx. lia.
Qed.

Lemma StronglySorted_filter_map (f : Row -> bool) (l : list Row) :
  StronglySorted lt (map row_pos l) ->
  StronglySorted lt (map row_pos (filter f l)).
Proof.
  induction l as [| x l IH]; simpl; intro H; [constructor |].
  apply StronglySorted_inv in H. destruct H as [Hs Hf].
  destruct (f x); [| now apply IH].
  simpl. constructor; [now apply IH |].
  apply Forall_forall. intros y Hy.
  apply in_map_iff in Hy. destruct Hy as (r & <- & Hr).
  apply filter_In in Hr. destruct Hr as [Hr _].
  rewrite Forall_forall in Hf. apply Hf. now apply in_map.
Qed.

Lemma cleaned_sorted (self : Backtester) (fetched : list Bar) :
  StronglySorted lt (map row_pos (cleaned self fetched)).
Proof.
  unfold cleaned, dropna. apply StronglySorted_filter_map.
  unfold add_indicators. rewrite assemble_pos. apply StronglySorted_seq.
Qed.

Lemma assemble_nth_error (bars : list Bar) :
  forall pos rsi_col ma_col i r,
    nth_error (assemble pos bars rsi_col ma_col) i = Some r ->
    row_pos r = (pos + i)%nat
    /\ nth_error bars i = Some (row_bar r)
    /\ nth_error rsi_col i = Some (rsi r)
    /\ nth_error ma_col i = Some (rsi_ma r).
Proof.
  induction bars as [| b bars IH]; intros pos rsi_col ma_col i r H.
  - destruct i; discriminate.
  - destruct rsi_col as [| x rsi_col]; [destruct i; discriminate |].
    destruct ma_col as [| m ma_col]; [destruct i; discriminate |].
    destruct i as [| i]; simpl in H.
    + inversion H; subst r. simpl. rewrite Nat.add_0_r. auto.
    + apply IH in H. destruct H as (H1 & H2 & H3 & H4).
      simpl. repeat split; auto. lia.
Qed.

Lemma cleaned_row (self : Backtester) (fetched : list Bar) (r : Row) :
  In r (cleaned self fetched) ->
  row_has_nan r = false
  /\ nth_error fetched (row_pos r) = Some (row_bar r)
  /\ nth_error (calculate_rsi (map close fetched) (rsi_window self))
               (row_pos r) = Some (rsi r)
  /\ nth_error (rolling_mean (ma_window self)
                  (calculate_rsi (map close fetched) (rsi_window self)))
               (row_pos r) = Some (rsi_ma r).
Proof.
  unfold cleaned, dropna. intro H. apply filter_In in H.
  destruct H as [H Hn]. apply negb_true_iff in Hn.
  split; [exact Hn |].
  apply In_nth_error in H. destruct H as [i Hi].
  unfold add_indicators in Hi. apply assemble_nth_error in Hi.
  destruct Hi as (-> & H2 & H3 & H4). simpl. auto.
Qed.

Lemma backtest_trace_bar (self : Backtester) (fetched : list Bar) (cap : fval) :
  map ev_bar (backtest_trace self fetched cap)
  = tl (map row_bar (cleaned self fetched)).
Proof.
  unfold backtest_trace. cbv zeta. rewrite loop_trace_rows.
  destruct (cleaned self fetched) as [| r0 rest]; [reflexivity |].
  simpl. apply trace_from_bar.
Qed.

Lemma row_has_nan_false (r : Row) :
  row_has_nan r = false -> is_nan (rsi r) = false /\ is_nan (rsi_ma r) = false.
Proof.
  unfold row_has_nan. intro H.
  repeat (apply orb_false_iff in H; destruct H as [H ?]). auto.
Qed.

(** C2 (as the code has it).  The loop takes one decision per row of the
    cleaned frame, in the order of the feed, starting at the second row: the
    bars it visits are the cleaned rows without the first one, whose only
    role is to be the previous bar of the second.  The cleaned rows are in
    strictly increasing position, stand for bars of the feed and have a
    defined [rsi] and [rsi_ma]. *)
Theorem loop_visits_tail (self : Backtester) (fetched : list Bar) (cap : fval) :
  map ev_pos (backtest_trace self fetched cap)
    = tl (map row_pos (cleaned self fetched))
  /\ map ev_bar (backtest_trace self fetched cap)
    = tl (map row_bar (cleaned self fetched))
  /\ StronglySorted lt (map row_pos (cleaned self fetched))
  /\ Forall (fun r => is_nan (rsi r) = false
                      /\ is_nan (rsi_ma r) = false
                      /\ nth_error fetched (row_pos r) = Some (row_bar r))
            (cleaned self fetched).
Proof.
  split; [apply backtest_trace_pos |].
  split; [apply backtest_trace_bar |].
  split; [apply cleaned_sorted |].
  apply Forall_forall. intros r Hr.
  apply cleaned_row in Hr. destruct Hr as (Hn & Hb & _).
  apply row_has_nan_false in Hn. tauto.
Qed.

(** C2 (as stated) fails: on the 28-bar feed the first bar with defined
    indicators is bar 26, and the loop takes no decision at it. *)
Lemma first_defined_bar_not_evaluated :
  option_map row_pos (first_defined default_backtester feed28) = Some 26%nat
  /\ decision_at default_backtester feed28 (Num 100) 26 = None
  /\ ~ evaluates_first_defined default_backtester feed28 (Num 100).
Proof.
  split; [vm_compute; reflexivity |].
  split; [vm_compute; reflexivity |].
  intro H.
  pose (r := nth 26 (add_indicators default_backtester feed28)
                 (mkRow 0 (bar_at 0 0) NaN NaN)).
  assert (E : first_defined default_backtester feed28 = Some r)
    by (vm_compute; reflexivity).
  apply (H r E). vm_compute. reflexivity.
Qed.

End Visits.

(* ================================================================== *)
(** * Warm-up and short feeds *)
(* ================================================================== *)

Section WarmUp.

Lemma rolling_mean_nth_error (w : nat) (s : list fval) (i : nat) :
  nth_error (rolling_mean w s) i =
  if (i <? length s)%nat then Some (window_mean w (firstn (S i) s)) else None.
Proof.
  unfold rolling_mean. rewrite nth_error_map, nth_error_seq.
  destruct (i <? length s)%nat; reflexivity.
Qed.

(** If the first [k] entries of a series are not usable, the first
    [k + (w - 1)] rolling means are undefined. *)
Lemma window_mean_warm (w : nat) (s : list fval) (i k : nat) :
  (forall j x, (j < k)%nat -> nth_error s j = Some x -> is_finite x = false) ->
  (i < k + (w - 1))%nat ->
  (i < length s)%nat ->
  window_mean w (firstn (S i) s) = NaN.
Proof.
  intros Hk Hi Hlen. unfold window_mean.
  rewrite length_firstn. replace (Nat.min (S i) (length s)) with (S i) by lia.
  destruct (S i <? w)%nat eqn:E; [reflexivity |].
  apply Nat.ltb_ge in E.
  destruct w as [| w].
  - rewrite Nat.sub_0_r.
    rewrite skipn_all2 by (rewrite length_firstn; lia). reflexivity.
  - pose proof (hd_error_skipn (S i - S w) (firstn (S i) s)) as Hhd.
    rewrite nth_error_firstn in Hhd.
    replace (S i - S w <? S i)%nat with true in Hhd
      by (symmetry; apply Nat.ltb_lt; lia).
    destruct (nth_error s (S i - S w)) as [x |] eqn:Ex.
    + destruct (skipn (S i - S w) (firstn (S i) s)) as [| y rest];
        [discriminate |].
      simpl in Hhd. inversion Hhd; subst y. simpl.
      rewrite (Hk (S i - S w)%nat x) by (assumption || lia). reflexivity.
    + apply nth_error_None in Ex. lia.
Qed.

Lemma rolling_mean_warm (w : nat) (s : list fval) (i k : nat) (y : fval) :
  (forall j x, (j < k)%nat -> nth_error s j = Some x -> is_finite x = false) ->
  (i < k + (w - 1))%nat ->
  nth_error (rolling_mean w s) i = Some y ->
  y = NaN.
Proof.
  intros Hk Hi H. rewrite rolling_mean_nth_error in H.
  destruct (i <? length s)%nat eqn:E; [| discriminate].
  apply Nat.ltb_lt in E. inversion H.
  now apply window_mean_warm with (k := k).
Qed.

Lemma calculate_rsi_warm (prices : list fval) (w i : nat) (x : fval) :
  (i < w - 1)%nat ->
  nth_error (calculate_rsi prices w) i = Some x ->
  x = NaN.
Proof.
  intros Hi H. rewrite calculate_rsi_nth_error in H.
  destruct (nth_error (avg_gain prices w) i) as [g |] eqn:Eg; [| discriminate].
  destruct (nth_error (avg_loss prices w) i) as [l |]; [| discriminate].
  assert (g = NaN).
  { apply (@rolling_mean_warm w (gain_series prices) i 0 g); auto.
    intros j y Hj. lia. }
  subst g. inversion H. reflexivity.
Qed.

Lemma rsi_ma_warm (self : Backtester) (prices : list fval) (i : nat) (x : fval) :
  (i < warm_up self)%nat ->
  nth_error (rolling_mean (ma_window self)
               (calculate_rsi prices (rsi_window self))) i = Some x ->
  x = NaN.
Proof.
  intros Hi H.
  apply (@rolling_mean_warm (ma_window self)
           (calculate_rsi prices (rsi_window self)) i
           (rsi_window self - 1) x); auto.
  intros j y Hj Hy. apply calculate_rsi_warm in Hy; [| exact Hj].
  now subst y.
Qed.

(** No row among the first [warm_up] survives [dropna]. *)
Lemma cleaned_after_warm_up (self : Backtester) (fetched : list Bar) (r : Row) :
  In r (cleaned self fetched) -> (warm_up self <= row_pos r)%nat.
Proof.
  intro H. apply cleaned_row in H. destruct H as (Hn & _ & _ & Hma).
  destruct (Nat.lt_ge_cases (row_pos r) (warm_up self)) as [Hlt | Hge];
    [| exact Hge].
  apply rsi_ma_warm in Hma; [| exact Hlt].
  apply row_has_nan_false in Hn. destruct Hn as [_ Hn].
  rewrite Hma in Hn. discriminate.
Qed.

Lemma sorted_range_length (l : list nat) :
  forall lo hi,
    StronglySorted lt l ->
    Forall (fun x => (lo <= x < hi)%nat) l ->
    (length l <= hi - lo)%nat.
Proof.
  induction l as [| a l IH]; intros lo hi Hs Hr; simpl; [lia |].
  apply StronglySorted_inv in Hs. destruct Hs as [Hs Ha].
  inversion Hr as [| ? ? Hlo Hrest]; subst.
  assert (H : (length l <= hi - S a)%nat).
  { apply IH; [exact Hs |].
    apply Forall_forall. intros x Hx.
    rewrite Forall_forall in Ha, Hrest.
    specialize (Ha x Hx). specialize (Hrest x Hx). lia. }
  lia.
Qed.

Lemma cleaned_length (self : Backtester) (fetched : list Bar) :
  (length (cleaned self fetched) <= length fetched - warm_up self)%nat.
Proof.
  rewrite <- (length_map row_pos).
  apply sorted_range_length; [apply cleaned_sorted |].
  apply Forall_forall. intros x Hx.
  apply in_map_iff in Hx. destruct Hx as (r & <- & Hr).
  split; [exact (@cleaned_after_warm_up self fetched r Hr)
         | exact (@cleaned_pos_lt self fetched r Hr)].
Qed.

Lemma run_backtest_no_data (self : Backtester) (feed : option (list Bar))
      (cap : fval) :
  run_backtest self feed cap = NoData <-> feed = None \/ feed = Some [].
Proof.
  split.
  - destruct feed as [[| b fetched] |]; auto.
    rewrite run_backtest_some by discriminate. cbv zeta.
    destruct (if in_position _ then _ else _); [| discriminate].
    destruct (trades _); [destruct (is_zero cap) |]; discriminate.
  - intros [-> | ->]; reflexivity.
Qed.

(** A run whose cleaned frame has at most one row never enters the loop
    body. *)
Lemma run_backtest_no_rows (self : Backtester) (fetched : list Bar) (cap : fval) :
  fetched <> [] ->
  (length (cleaned self fetched) <= 1)%nat ->
  is_zero cap = false ->
  run_backtest self (Some fetched) cap = Finished [] (fadd cap zero)
  /\ backtest_trace self fetched cap = [].
Proof.
  intros Hne Hlen Hcap. rewrite run_backtest_some by exact Hne.
  unfold backtest_trace. cbv zeta. rewrite loop_trace_rows.
  destruct (cleaned self fetched) as [| r0 [| r1 rest]]; simpl in *;
    try lia; rewrite Hcap; split; reflexivity.
Qed.

(** C1 (as the code has it).  [run_backtest] returns no result exactly when
    the fetched feed is missing or has no bar.  A non-empty feed with fewer
    bars than the two windows together (fewer than 2w bars) is accepted: at
    most one row survives the removal of the undefined rows, the loop body
    never runs, and the run returns the empty ledger and the initial
    capital. *)
Theorem short_feed_result (self : Backtester) (fetched : list Bar) (cap : fval) :
  fetched <> [] ->
  (length fetched < rsi_window self + ma_window self)%nat ->
  is_zero cap = false ->
  run_backtest self (Some fetched) cap = Finished [] (fadd cap zero)
  /\ backtest_trace self fetched cap = []
  /\ (length (cleaned self fetched) <= 1)%nat
  /\ (forall feed,
         run_backtest self feed cap = NoData <-> feed = None \/ feed = Some []).
Proof.
  intros Hne Hlen Hcap.
  assert (Hrows : (length (cleaned self fetched) <= 1)%nat).
  { pose proof (cleaned_length self fetched) as H.
    unfold warm_up in H. lia. }
  destruct (run_backtest_no_rows self cap Hne Hrows Hcap) as [H1 H2].
  repeat split; auto; apply run_backtest_no_data.
Qed.

Lemma short_feed_result_witness :
  run_backtest default_backtester (Some feed27) (Num 100)
  = Finished [] (fadd (Num 100) zero).
Proof.
  apply (@short_feed_result default_backtester feed27 (Num 100)).
  - discriminate.
  - vm_compute. lia.
  - reflexivity.
Defined.

(** C1 (as stated) fails: the 27-bar feed leaves one row, fewer than 28, and
    the run returns a result. *)
Lemma short_feed_not_rejected :
  length feed27 = 27%nat
  /\ length (cleaned default_backtester feed27) = 1%nat
  /\ run_backtest default_backtester (Some feed27) (Num 100)
     = Finished [] (Num 100)
  /\ ~ rejects_short_feeds default_backtester.
Proof.
  split; [reflexivity |].
  split; [vm_compute; reflexivity |].
  split; [vm_compute; reflexivity |].
  intro H.
  assert (L : (length (cleaned default_backtester feed27)
               < rsi_window default_backtester
                 + ma_window default_backtester)%nat)
    by (vm_compute; lia).
  pose proof (H feed27 (Num 100) L) as E.
  vm_compute in E. discriminate E.
Qed.

(** With one more bar the loop body runs once. *)
Example feed28_enters_loop :
  map ev_pos (backtest_trace default_backtester feed28 (Num 100)) = [27%nat]
  /\ map (fun e => option_map t_action (ev_trade e))
         (backtest_trace default_backtester feed28 (Num 100)) = [Some BUY].
Proof. split; vm_compute; reflexivity. Qed.

(** [run_backtest] never reads outside the cleaned frame. *)
Lemma run_backtest_no_index_error (self : Backtester)
      (feed : option (list Bar)) (cap : fval) :
  run_backtest self feed cap <> Raised IndexError.
Proof.
  destruct feed as [[| b fetched] |]; try discriminate.
  rewrite run_backtest_some by discriminate. cbv zeta.
  destruct (in_position (walk (cleaned self (b :: fetched))
                              (initial_state cap))) eqn:Epos.
  - destruct (cleaned self (b :: fetched)) as [| r0 rest] eqn:E;
      [discriminate |].
    destruct (iloc (r0 :: rest) (length (r0 :: rest) - 1)) eqn:El.
    + destruct (trades _); [destruct (is_zero cap) |]; discriminate.
    + apply nth_error_None in El. simpl in El. lia.
  - destruct (trades _); [destruct (is_zero cap) |]; discriminate.
Qed.

End WarmUp.

(* ================================================================== *)
(** * Flat feeds *)
(* ================================================================== *)

Section FlatFeed.

Lemma fltb_irrefl (a : fval) : fltb a a = false.
Proof.
  destruct a; simpl; try reflexivity.
  apply Qlt_bool_false_iff. lra.
Qed.

Lemma fsub_NaN_r (a : fval) : fsub a NaN = NaN.
Proof. destruct a; reflexivity. Qed.

(** On a constant series no difference is positive and none is negative. *)
Lemma flat_diff (c : fval) (prices : list fval) :
  Forall (eq c) prices ->
  forall prev, prev = NaN \/ prev = c ->
    Forall (fun d => fgtb d zero = false /\ fltb d zero = false)
           (diff_from prev prices).
Proof.
  induction 1 as [| x prices Hx _ IH]; intros prev Hprev; cbn [diff_from];
    constructor.
  - subst x. destruct Hprev as [-> | ->].
    + rewrite fsub_NaN_r. split; reflexivity.
    + rewrite fgtb_fsub_zero, fltb_fsub_zero. unfold fgtb.
      split; apply fltb_irrefl.
  - apply IH. right. now subst x.
Qed.

Lemma flat_gain_series (c : fval) (prices : list fval) :
  Forall (eq c) prices -> Forall (eq zero) (gain_series prices).
Proof.
  intro H. unfold gain_series, diff, where_.
  apply Forall_forall. intros x Hx.
  apply in_map_iff in Hx. destruct Hx as (d & <- & Hd).
  pose proof (flat_diff H (prev := NaN) (or_introl eq_refl)) as Hf.
  rewrite Forall_forall in Hf. destruct (Hf d Hd) as [-> _]. reflexivity.
Qed.

Lemma flat_loss_series (c : fval) (prices : list fval) :
  Forall (eq c) prices -> Forall (eq zero) (loss_series prices).
Proof.
  intro H. unfold loss_series, diff, where_.
  apply Forall_forall. intros x Hx.
  apply in_map_iff in Hx. destruct Hx as (y & <- & Hy).
  apply in_map_iff in Hy. destruct Hy as (d & <- & Hd).
  pose proof (flat_diff H (prev := NaN) (or_introl eq_refl)) as Hf.
  rewrite Forall_forall in Hf. destruct (Hf d Hd) as [_ ->]. reflexivity.
Qed.

Lemma fold_fadd_zeros (l : list fval) :
  Forall (eq zero) l ->
  forall a, exists s, fold_left fadd l (Num a) = Num s /\ s == a.
Proof.
  induction 1 as [| x l Hx _ IH]; intro a; simpl.
  - exists a. split; reflexivity.
  - subst x. simpl. destruct (IH (a + 0)) as (s & E & Hs).
    exists s. split; [exact E | lra].
Qed.

Lemma Forall_skipn_zero (l : list fval) :
  forall n, Forall (eq zero) l -> Forall (eq zero) (skipn n l).
Proof.
  induction l as [| x l IH]; intros [| n] H; simpl; auto.
  inversion H; subst. now apply IH.
Qed.

Lemma Forall_firstn_zero (l : list fval) :
  forall n, Forall (eq zero) l -> Forall (eq zero) (firstn n l).
Proof.
  induction l as [| x l IH]; intros [| n] H; simpl; auto.
  inversion H; subst. constructor; auto.
Qed.

Lemma window_mean_zeros (w : nat) (l : list fval) :
  Forall (eq zero) l -> zero_or_nan (window_mean w l).
Proof.
  intro H. unfold window_mean.
  destruct (length l <? w)%nat; [now left |].
  destruct (forallb is_finite _); [| now left].
  destruct (fold_fadd_zeros (Forall_skipn_zero (length l - w) H) 0)
    as (s & E & Hs).
  unfold fsum, zero. rewrite E. unfold of_nat. simpl.
  apply Qeq_bool_iff in Hs.
  destruct (Qeq_bool (inject_Z (Z.of_nat w)) 0) eqn:Ew.
  - rewrite Hs. now left.
  - right. eexists. split; [reflexivity |].
    apply Qeq_bool_iff in Hs. rewrite Hs.
    apply Qeq_bool_false_iff in Ew. field. exact Ew.
Qed.

Lemma rolling_mean_zeros (w : nat) (s : list fval) (i : nat) (y : fval) :
  Forall (eq zero) s ->
  nth_error (rolling_mean w s) i = Some y ->
  zero_or_nan y.
Proof.
  intros Hs H. rewrite rolling_mean_nth_error in H.
  destruct (i <? length s)%nat; [| discriminate].
  injection H as <-. apply window_mean_zeros.
  exact (Forall_firstn_zero (S i) Hs).
Qed.

Lemma fdiv_zero_or_nan (g l : fval) :
  zero_or_nan g -> zero_or_nan l -> fdiv g l = NaN.
Proof.
  intros [-> | (z & -> & Hz)] [-> | (z' & -> & Hz')]; try reflexivity.
  simpl. apply Qeq_bool_iff in Hz. apply Qeq_bool_iff in Hz'.
  now rewrite Hz, Hz'.
Qed.

(** On a constant series the RSI is undefined everywhere: [0 / 0]. *)
Lemma flat_rsi (c : fval) (prices : list fval) (w i : nat) (x : fval) :
  Forall (eq c) prices ->
  nth_error (calculate_rsi prices w) i = Some x ->
  x = NaN.
Proof.
  intros Hc H. rewrite calculate_rsi_nth_error in H.
  destruct (nth_error (avg_gain prices w) i) as [g |] eqn:Eg; [| discriminate].
  destruct (nth_error (avg_loss prices w) i) as [l |] eqn:El; [| discriminate].
  apply rolling_mean_zeros in Eg; [| exact (flat_gain_series Hc)].
  apply rolling_mean_zeros in El; [| exact (flat_loss_series Hc)].
  rewrite (fdiv_zero_or_nan Eg El) in H. inversion H. reflexivity.
Qed.

Lemma flat_cleaned (self : Backtester) (fetched : list Bar) (c : fval) :
  Forall (fun b => close b = c) fetched -> cleaned self fetched = [].
Proof.
  intro Hc.
  destruct (cleaned self fetched) as [| r0 rest] eqn:E; [reflexivity |].
  assert (Hr : In r0 (cleaned self fetched)) by (rewrite E; now left).
  apply cleaned_row in Hr. destruct Hr as (Hn & _ & Hrsi & _).
  apply (@flat_rsi c) in Hrsi.
  - apply row_has_nan_false in Hn. destruct Hn as [Hn _].
    rewrite Hrsi in Hn. discriminate.
  - apply Forall_forall. intros x Hx.
    apply in_map_iff in Hx. destruct Hx as (b & <- & Hb).
    rewrite Forall_forall in Hc. symmetry. now apply Hc.
Qed.

Lemma positive_not_zero (cap : fval) :
  fgtb cap zero = true -> is_zero cap = false /\ is_nan cap = false.
Proof.
  destruct cap; simpl; try discriminate; auto.
  unfold fgtb, is_zero. simpl. intro H. apply Qlt_bool_iff in H.
  split; [| reflexivity]. apply Qeq_bool_false_iff. lra.
Qed.

(** C8.  On a feed whose close is the same on every bar, whatever its
    length (the run being past the guard on a feed without bars, and the
    initial capital positive), no row survives [dropna], the loop takes no
    decision, no BUY ever triggers, the ledger is empty and the final value
    equals the initial capital. *)
Theorem flat_feed_no_trades (self : Backtester) (fetched : list Bar)
        (cap c : fval) :
  fetched <> [] ->
  Forall (fun b => close b = c) fetched ->
  fgtb cap zero = true ->
  run_backtest self (Some fetched) cap = Finished [] (fadd cap zero)
  /\ feqb (fadd cap zero) cap = true
  /\ backtest_trace self fetched cap = [].
Proof.
  intros Hne Hc Hcap.
  destruct (positive_not_zero cap Hcap) as [Hz Hn].
  assert (Hrows : (length (cleaned self fetched) <= 1)%nat).
  { rewrite (flat_cleaned self Hc). simpl. lia. }
  destruct (run_backtest_no_rows self cap Hne Hrows Hz) as [H1 H2].
  repeat split; auto. now apply fadd_zero_r_eq.
Qed.

Lemma flat_feed_no_trades_witness :
  run_backtest default_backtester (Some flat_feed) (Num 100)
  = Finished [] (fadd (Num 100) zero).
Proof.
  apply (@flat_feed_no_trades default_backtester flat_feed (Num 100) (Num 5)).
  - discriminate.
  - repeat constructor.
  - reflexivity.
Defined.

End FlatFeed.

(* ================================================================== *)
(** * More on the decision rules *)
(* ================================================================== *)

Section MoreDecisionRules.

Lemma fltb_asym (a b : fval) : fltb a b = true -> fltb b a = false.
Proof.
  destruct a, b; simpl; try discriminate; try reflexivity.
  intro H. apply Qlt_bool_iff in H. apply Qlt_bool_false_iff. lra.
Qed.

Lemma fltb_nan_l (b : fval) : fltb NaN b = false.
Proof. reflexivity. Qed.

Lemma fltb_nan_r (a : fval) : fltb a NaN = false.
Proof. destruct a; reflexivity. Qed.

Lemma check_for_buy_spec (rsi_now rsi_ma_now current_price prev_price : fval)
      (is_invested : bool) :
  LogicStopLoss.check_for_buy rsi_now rsi_ma_now current_price prev_price
    is_invested
  = fgtb rsi_now rsi_ma_now && fgtb current_price prev_price
    && negb is_invested.
Proof.
  unfold LogicStopLoss.check_for_buy. cbv zeta. rewrite fgtb_fsub_zero.
  destruct (fgtb rsi_now rsi_ma_now && fgtb current_price prev_price
            && negb is_invested); reflexivity.
Qed.

(** X1. The sell decision of the simulation, [in_position and sell(...)],
    is true exactly when a position is held, [rsi_now < rsi_ma_now] and
    [price_now < price_prev]. *)
Theorem sell_signal_iff (current_bar prev_bar : Row) (s : State) :
  sell_signal current_bar prev_bar s = true <->
  (in_position s = true
   /\ fltb (rsi current_bar) (rsi_ma current_bar) = true
   /\ fltb (close (row_bar current_bar)) (close (row_bar prev_bar)) = true).
Proof.
  unfold sell_signal. rewrite sell_spec.
  rewrite !andb_true_iff. tauto.
Qed.

(** X2. [buy] and [sell] never answer true on the same indicator and price
    values, whatever previous RSI each one is given. *)
Theorem buy_sell_exclusive
        (rsi_prev rsi_prev' rsi_now rsi_ma_now current_price prev_price : fval) :
  Logic.buy rsi_prev rsi_now rsi_ma_now current_price prev_price
  && Logic.sell rsi_prev' rsi_now rsi_ma_now current_price prev_price = false.
Proof.
  rewrite buy_spec, sell_spec. unfold fgtb.
  destruct (fltb rsi_ma_now rsi_now) eqn:E; [| reflexivity].
  apply fltb_asym in E. rewrite E. simpl. apply andb_false_r.
Qed.

(** X3. When the current RSI, its moving average, the current price or the
    previous price is NaN, neither [buy] nor [sell] gives a signal. *)
Theorem no_signal_on_nan
        (rsi_prev rsi_now rsi_ma_now current_price prev_price : fval) :
  is_nan rsi_now || is_nan rsi_ma_now || is_nan current_price
  || is_nan prev_price = true ->
  Logic.buy rsi_prev rsi_now rsi_ma_now current_price prev_price = false
  /\ Logic.sell rsi_prev rsi_now rsi_ma_now current_price prev_price = false.
Proof.
  intro H. rewrite buy_spec, sell_spec. unfold fgtb.
  destruct rsi_now, rsi_ma_now, current_price, prev_price;
    simpl in H; try discriminate; simpl;
    rewrite ?andb_false_r; split; reflexivity.
Qed.

Lemma no_signal_on_nan_witness :
  Logic.buy (Num 50) NaN (Num 40) (Num 11) (Num 10) = false
  /\ Logic.sell (Num 50) NaN (Num 40) (Num 11) (Num 10) = false.
Proof.
  apply (@no_signal_on_nan (Num 50) NaN (Num 40) (Num 11) (Num 10)).
  reflexivity.
Defined.

(** X4. The buy rule of [logic_stop_loss.py] is the buy decision the
    simulation takes with [logic.py]: given the position flag of the state,
    [check_for_buy] answers as [not in_position and buy(...)] does. *)
Theorem check_for_buy_is_buy_signal (current_bar prev_bar : Row) (s : State) :
  LogicStopLoss.check_for_buy (rsi current_bar) (rsi_ma current_bar)
    (close (row_bar current_bar)) (close (row_bar prev_bar)) (in_position s)
  = buy_signal current_bar prev_bar s.
Proof.
  rewrite check_for_buy_spec. unfold buy_signal. rewrite buy_spec.
  destruct (in_position s); simpl; [apply andb_false_r | apply andb_true_r].
Qed.

(** X5. For one and the same position flag, [check_for_buy] and
    [check_for_sell] never both answer true, whatever their other
    arguments. *)
Theorem check_for_buy_sell_exclusive
        (rsi_now rsi_ma_now current_price prev_price : fval)
        (rsi_now' rsi_ma_now' current_price' purchase_price : fval)
        (is_invested : bool) :
  LogicStopLoss.check_for_buy rsi_now rsi_ma_now current_price prev_price
    is_invested
  && LogicStopLoss.check_for_sell rsi_now' rsi_ma_now' current_price'
       purchase_price is_invested
  = false.
Proof.
  rewrite check_for_buy_spec. unfold LogicStopLoss.check_for_sell.
  destruct is_invested; simpl; [| apply andb_false_r].
  now rewrite andb_false_r.
Qed.

(** X6. Whenever the crossover rule [sell] fires, the stop-loss rule
    [check_for_sell] fires too for an invested position, whatever the
    purchase price. *)
Theorem sell_implies_check_for_sell
        (rsi_prev rsi_now rsi_ma_now current_price prev_price purchase_price
         : fval) :
  Logic.sell rsi_prev rsi_now rsi_ma_now current_price prev_price = true ->
  LogicStopLoss.check_for_sell rsi_now rsi_ma_now current_price
    purchase_price true = true.
Proof.
  rewrite sell_spec. intro H. apply andb_true_iff in H. destruct H as [H _].
  unfold LogicStopLoss.check_for_sell. simpl. rewrite H.
  now rewrite orb_true_r.
Qed.

Lemma sell_implies_check_for_sell_witness :
  LogicStopLoss.check_for_sell (Num 40) (Num 50) (Num 99) (Num 90) true = true.
Proof.
  apply (@sell_implies_check_for_sell (Num 45) (Num 40) (Num 50) (Num 99)
           (Num 100) (Num 90)).
  reflexivity.
Defined.

End MoreDecisionRules.

(* ================================================================== *)
(** * More on the indicator *)
(* ================================================================== *)

Section MoreIndicator.

Lemma Forall_skipn_gen (A : Type) (P : A -> Prop) (l : list A) :
  forall n, Forall P l -> Forall P (skipn n l).
Proof.
  induction l as [| x l IH]; intros [| n] H; simpl; auto.
  inversion H; subst. now apply IH.
Qed.

Lemma Forall_firstn_gen (A : Type) (P : A -> Prop) (l : list A) :
  forall n, Forall P l -> Forall P (firstn n l).
Proof.
  induction l as [| x l IH]; intros [| n] H; simpl; auto.
  inversion H; subst. constructor; auto.
Qed.

Lemma In_firstn_nth (A : Type) (l : list A) (n : nat) (x : A) :
  In x (firstn n l) -> exists i, (i < n)%nat /\ nth_error l i = Some x.
Proof.
  intro H. apply In_nth_error in H. destruct H as [i Hi].
  rewrite nth_error_firstn in Hi.
  destruct (i <? n)%nat eqn:E; [| discriminate].
  apply Nat.ltb_lt in E. now exists i.
Qed.

Lemma of_nat_nonneg (n : nat) : 0 <= inject_Z (Z.of_nat n).
Proof. unfold Qle, inject_Z. simpl. lia. Qed.

Lemma gain_series_nonneg (prices : list fval) :
  Forall ext_nonneg (gain_series prices).
Proof.
  unfold gain_series, where_. apply Forall_forall. intros x Hx.
  apply in_map_iff in Hx. destruct Hx as (d & <- & _).
  unfold fgtb. destruct d as [q | | |]; simpl; try lra; auto.
  destruct (Qlt_bool 0 q) eqn:E; simpl; [| lra].
  apply Qlt_bool_iff in E. lra.
Qed.


Lemma fold_fadd_nonneg (l : list fval) :
  forallb is_finite l = true ->
  Forall ext_nonneg l ->
  forall a, 0 <= a -> exists s, fold_left fadd l (Num a) = Num s /\ 0 <= s.
Proof.
  induction l as [| x l IH]; intros Hf Hn a Ha; simpl.
  - now exists a.
  - simpl in Hf. apply andb_true_iff in Hf. destruct Hf as [Hx Hf].
    inversion Hn as [| ? ? Hx' Hn']; subst.
    destruct x as [q | | |]; try discriminate. simpl in Hx'.
    apply (IH Hf Hn' (a + q)). lra.
Qed.

Lemma window_mean_nonneg (w : nat) (upto : list fval) :
  Forall ext_nonneg upto -> ext_nonneg (window_mean w upto).
Proof.
  intro H. unfold window_mean.
  destruct (length upto <? w)%nat; [exact I |].
  destruct (forallb is_finite _) eqn:Ef; [| exact I].
  destruct (@fold_fadd_nonneg _ Ef
              (Forall_skipn_gen (length upto - w) H) 0 (Qle_refl 0))
    as (s & E & Hs).
  unfold fsum, zero. rewrite E. unfold of_nat. simpl.
  pose proof (of_nat_nonneg w) as Hw.
  destruct (Qeq_bool (inject_Z (Z.of_nat w)) 0) eqn:Ew.
  - destruct (Qeq_bool s 0) eqn:Es; [exact I |].
    apply Qeq_bool_false_iff in Es.
    assert (L : Qlt_bool 0 s = true) by (apply Qlt_bool_iff; lra).
    rewrite L. exact I.
  - apply Qeq_bool_false_iff in Ew. simpl.
    apply Qle_shift_div_l; lra.
Qed.

Lemma rolling_mean_nonneg (w : nat) (s : list fval) (i : nat) (y : fval) :
  Forall ext_nonneg s ->
  nth_error (rolling_mean w s) i = Some y ->
  ext_nonneg y.
Proof.
  intros Hs H. rewrite rolling_mean_nth_error in H.
  destruct (i <? length s)%nat; [| discriminate].
  injection H as <-. apply window_mean_nonneg.
  exact (Forall_firstn_gen (S i) Hs).
Qed.





(** X8. The RSI series has one entry per price, and its first
    [window - 1] entries are undefined. *)
Theorem calculate_rsi_shape (prices : list fval) (window : nat) :
  length (calculate_rsi prices window) = length prices
  /\ Forall (eq NaN) (firstn (window - 1) (calculate_rsi prices window)).
Proof.
  split; [apply calculate_rsi_length |].
  apply Forall_forall. intros x Hx.
  apply In_firstn_nth in Hx. destruct Hx as (i & Hi & Hx).
  symmetry. exact (@calculate_rsi_warm prices window i x Hi Hx).
Qed.

Lemma assemble_length (bars : list Bar) :
  forall pos rsi_col ma_col,
    length rsi_col = length bars ->
    length ma_col = length bars ->
    length (assemble pos bars rsi_col ma_col) = length bars.
Proof.
  induction bars as [| b bars IH]; intros pos rsi_col ma_col H1 H2;
    [reflexivity |].
  destruct rsi_col as [| r rsi_col]; [discriminate |].
  destruct ma_col as [| m ma_col]; [discriminate |].
  simpl in *. f_equal. apply IH; lia.
Qed.

Lemma add_indicators_length (self : Backtester) (bars : list Bar) :
  length (add_indicators self bars) = length bars.
Proof.
  unfold add_indicators. apply assemble_length.
  - now rewrite calculate_rsi_length, length_map.
  - now rewrite rolling_mean_length, calculate_rsi_length, length_map.
Qed.

(** X9. The indicator columns look at the past only: the rows computed for
    a feed are the first rows computed for any longer feed that starts with
    it, so [rsi] and [rsi_ma] of a bar do not depend on later bars. *)
Theorem indicators_past_only (self : Backtester) (bars later : list Bar) :
  length (add_indicators self bars) = length bars
  /\ firstn (length bars) (add_indicators self (bars ++ later))
     = add_indicators self bars.
Proof.
  split; [apply add_indicators_length |].
  destruct (add_indicators_app self bars later) as (rows & -> & _).
  rewrite <- (add_indicators_length self bars) at 1.
  rewrite firstn_app, Nat.sub_diag, firstn_all. simpl.
  apply app_nil_r.
Qed.

End MoreIndicator.

(* ================================================================== *)
(** * More on the run: outcome and size of the ledger *)
(* ================================================================== *)

Section MoreRun.

Lemma event_of_record (cur prev : Row) (s : State) :
  trades (loop_body cur prev s)
  = trades s ++ ev_record (event_of cur prev s).
Proof.
  destruct (loop_body_cases cur prev s)
    as [(_ & _ & -> & ->) | [(_ & _ & -> & ->) | (-> & ->)]];
    unfold ev_record; simpl; [reflexivity | reflexivity |].
  now rewrite app_nil_r.
Qed.

(** The ledger is what the iterations appended, in order. *)
Lemma run_from_trades (rest : list Row) :
  forall prev s,
    trades (run_from prev rest s)
    = trades s ++ flat_map ev_record (trace_from prev rest s).
Proof.
  induction rest as [| cur rest IH]; intros prev s; simpl.
  - now rewrite app_nil_r.
  - rewrite IH, event_of_record. now rewrite <- app_assoc.
Qed.

Lemma final_state_trades (self : Backtester) (fetched : list Bar) (cap : fval) :
  trades (final_state self fetched cap)
  = flat_map ev_record (backtest_trace self fetched cap).
Proof.
  unfold final_state, backtest_trace, walk. cbv zeta.
  rewrite loop_trace_rows.
  destruct (cleaned self fetched) as [| r0 rest]; [reflexivity |].
  now rewrite run_from_trades.
Qed.

Lemma run_backtest_final (self : Backtester) (fetched : list Bar) (cap : fval)
      (ledger : list Trade) (fv : fval) :
  run_backtest self (Some fetched) cap = Finished ledger fv ->
  ledger = trades (final_state self fetched cap).
Proof. apply run_backtest_ledger. Qed.

Lemma final_state_in_states (self : Backtester) (fetched : list Bar)
      (cap : fval) :
  In (final_state self fetched cap) (backtest_states self fetched cap).
Proof.
  unfold final_state, backtest_states, walk. cbv zeta.
  rewrite loop_states_rows.
  destruct (cleaned self fetched) as [| r0 rest]; [now left |].
  exact (nth_error_In _ _ (states_from_last rest r0 (initial_state cap))).
Qed.

Lemma ev_record_length (l : list Event) :
  (length (flat_map ev_record l) <= length l)%nat.
Proof.
  induction l as [| e l IH]; simpl; [lia |].
  rewrite length_app. unfold ev_record at 1.
  destruct (ev_trade e); simpl; lia.
Qed.

Lemma backtest_trace_length (self : Backtester) (fetched : list Bar)
      (cap : fval) :
  length (backtest_trace self fetched cap)
  = (length (cleaned self fetched) - 1)%nat.
Proof.
  rewrite <- (length_map ev_pos), backtest_trace_pos.
  destruct (cleaned self fetched) as [| r0 rest]; simpl; [reflexivity |].
  rewrite length_map. lia.
Qed.

(** X10. On a feed with at least one bar and with a nonzero initial
    capital, [run_backtest] raises nothing and returns a ledger and a final
    value; the ledger is the list held by the trading variables when the
    loop is over. *)
Theorem run_backtest_finishes (self : Backtester) (fetched : list Bar)
        (cap : fval) :
  fetched <> [] ->
  is_zero cap = false ->
  exists ledger fv,
    run_backtest self (Some fetched) cap = Finished ledger fv
    /\ ledger = trades (final_state self fetched cap).
Proof.
  intros Hne Hcap.
  pose proof (run_backtest_no_index_error self (Some fetched) cap) as Hidx.
  rewrite run_backtest_some in Hidx |- * by exact Hne.
  cbv zeta in *. fold (final_state self fetched cap) in *.
  destruct (if in_position (final_state self fetched cap) then _ else _)
    as [m |]; [| congruence].
  destruct (trades (final_state self fetched cap)) eqn:E.
  - rewrite Hcap. eauto.
  - eauto.
Qed.

Lemma run_backtest_finishes_witness :
  exists ledger fv,
    run_backtest default_backtester (Some feed32) (Num 100)
    = Finished ledger fv
    /\ ledger = trades (final_state default_backtester feed32 (Num 100)).
Proof.
  apply (@run_backtest_finishes default_backtester feed32 (Num 100)).
  - discriminate.
  - reflexivity.
Defined.

Lemma loop_body_parity (cur prev : Row) (s : State) :
  in_position s = Nat.odd (length (trades s)) ->
  in_position (loop_body cur prev s)
  = Nat.odd (length (trades (loop_body cur prev s))).
Proof.
  intro H.
  destruct (loop_body_cases cur prev s)
    as [(_ & Hpos & _ & ->) | [(_ & Hpos & _ & ->) | (_ & ->)]];
    [| | exact H]; simpl; rewrite length_app, Nat.add_1_r, Nat.odd_succ,
      <- Nat.negb_odd, <- H, Hpos; reflexivity.
Qed.

(** X11. In every state of the loop a position is held exactly when the
    ledger has an odd number of records; in particular a run ends holding a
    position exactly when its ledger has odd length. *)
Theorem holding_iff_odd_ledger (self : Backtester) (fetched : list Bar)
        (cap : fval) :
  Forall (fun s => in_position s = Nat.odd (length (trades s)))
         (backtest_states self fetched cap)
  /\ in_position (final_state self fetched cap)
     = Nat.odd (length (trades (final_state self fetched cap))).
Proof.
  assert (H : forall s, In s (backtest_states self fetched cap) ->
                        in_position s = Nat.odd (length (trades s))).
  { apply backtest_states_reach with (Q := fun _ => True).
    - intros cur prev s _. apply loop_body_parity.
    - apply Forall_trivial_rows.
    - reflexivity. }
  split; [now apply Forall_forall |].
  apply H. apply final_state_in_states.
Qed.

(** X12. A returned ledger has at most one record per iteration of the
    loop: its length is at most the number of bars minus the warm-up rows
    [(rsi_window - 1) + (ma_window - 1)], minus one. *)
Theorem ledger_length_bound (self : Backtester) (fetched : list Bar)
        (cap : fval) (ledger : list Trade) (fv : fval) :
  run_backtest self (Some fetched) cap = Finished ledger fv ->
  (length ledger
   <= length fetched - ((rsi_window self - 1) + (ma_window self - 1)) - 1)%nat.
Proof.
  intro H. apply run_backtest_final in H. subst ledger.
  rewrite final_state_trades.
  pose proof (ev_record_length (backtest_trace self fetched cap)) as H1.
  rewrite backtest_trace_length in H1.
  pose proof (cleaned_length self fetched) as H2. unfold warm_up in H2.
  lia.
Qed.

Lemma ledger_length_bound_witness :
  (length ledger32 <= 32 - ((14 - 1) + (14 - 1)) - 1)%nat.
Proof.
  assert (H : run_backtest default_backtester (Some feed32) (Num 100)
              = Finished ledger32 final32) by (vm_compute; reflexivity).
  exact (@ledger_length_bound default_backtester feed32 (Num 100)
           ledger32 final32 H).
Defined.

End MoreRun.

(* ================================================================== *)
(** * More on the run: the money flow through the ledger *)
(* ================================================================== *)

Section MoneyFlow.

Lemma list_pair_ind (A : Type) (P : list A -> Prop) :
  P [] ->
  (forall a, P [a]) ->
  (forall a b l, P l -> P (a :: b :: l)) ->
  forall l, P l.
Proof.
  intros H0 H1 H2 l.
  assert (H : P l /\ forall a, P (a :: l)).
  { induction l as [| x l [IH1 IH2]]; split; auto. }
  exact (proj1 H).
Qed.

Lemma chain_snoc_buy (l : list Trade) :
  forall c c' b,
    chain c l ->
    chain_end c l = Flat c' ->
    t_action b = BUY ->
    t_value b = c' ->
    t_amount b = fdiv c' (t_price b) ->
    t_profit b = None ->
    t_profit_pct b = None ->
    chain c (l ++ [b]) /\ chain_end c (l ++ [b]) = Held b.
Proof.
  induction l as [| x | x y l IH] using list_pair_ind;
    intros c c' b Hc He Ha Hv Hq Hp Hpp.
  - simpl in He. injection He as <-. simpl. tauto.
  - discriminate.
  - simpl in Hc, He.
    destruct Hc as (H1 & H2 & H3 & H4 & H5 & H6 & H7 & H8 & H9 & H10 & Hc).
    destruct (IH (t_value y) c' b Hc He Ha Hv Hq Hp Hpp) as [IH1 IH2].
    split; [| exact IH2].
    simpl. tauto.
Qed.

Lemma chain_snoc_sell (l : list Trade) :
  forall c b s,
    chain c l ->
    chain_end c l = Held b ->
    t_action s = SELL ->
    t_amount s = t_amount b ->
    t_value s = fmul (t_amount b) (t_price s) ->
    t_profit s = Some (fsub (t_value s) (t_value b)) ->
    t_profit_pct s
    = Some (fmul (fdiv (fsub (t_value s) (t_value b)) (t_value b)) hundred) ->
    chain c (l ++ [s]) /\ chain_end c (l ++ [s]) = Flat (t_value s).
Proof.
  induction l as [| x | x y l IH] using list_pair_ind;
    intros c b s Hc He Ha Hq Hv Hp Hpp.
  - discriminate.
  - simpl in He. injection He as <-. simpl in Hc.
    destruct Hc as (H1 & H2 & H3 & H4 & H5 & _).
    rewrite H2 in Hp, Hpp. simpl. tauto.
  - simpl in Hc, He.
    destruct Hc as (H1 & H2 & H3 & H4 & H5 & H6 & H7 & H8 & H9 & H10 & Hc).
    destruct (IH (t_value y) b s Hc He Ha Hq Hv Hp Hpp) as [IH1 IH2].
    split; [| exact IH2].
    simpl. tauto.
Qed.

Lemma loop_body_chain (c : fval) (cur prev : Row) (s : State) :
  chain c (trades s) /\ state_matches c s ->
  chain c (trades (loop_body cur prev s))
  /\ state_matches c (loop_body cur prev s).
Proof.
  intros [Hc Hm]. unfold state_matches in *.
  destruct (loop_body_cases cur prev s)
    as [(_ & Hpos & _ & ->) | [(_ & Hpos & _ & ->) | (_ & ->)]];
    [| | tauto]; simpl.
  - destruct (chain_end c (trades s)) as [c' | b] eqn:E;
      [| destruct Hm as [Hm _]; congruence].
    destruct Hm as [_ Hcash].
    destruct (@chain_snoc_buy (trades s) c c' (buy_record cur prev s) Hc E)
      as [H1 H2]; simpl; try reflexivity; try congruence.
    rewrite H2. simpl. tauto.
  - destruct (chain_end c (trades s)) as [c' | b] eqn:E;
      [destruct Hm as [Hm _]; congruence |].
    destruct Hm as (_ & _ & Hq & Hv).
    destruct (@chain_snoc_sell (trades s) c b (sell_record cur prev s) Hc E)
      as [H1 H2]; simpl; try reflexivity; try congruence.
    rewrite H2. simpl. tauto.
Qed.

Lemma final_state_chain (self : Backtester) (fetched : list Bar) (cap : fval) :
  chain cap (trades (final_state self fetched cap))
  /\ state_matches cap (final_state self fetched cap).
Proof.
  unfold final_state.
  apply (@walk_invariant
           (fun s => chain cap (trades s) /\ state_matches cap s)
           (fun _ => True)).
  - intros cur prev s _. apply loop_body_chain.
  - apply Forall_trivial_rows.
  - unfold state_matches. simpl. tauto.
Qed.

(** X13. A returned ledger is a chain of round trips that starts from the
    initial capital: every BUY commits all the cash in hand (the initial
    capital, or the value of the SELL before it), records the quantity
    [value / price] and no profit; every SELL follows a BUY, sells its
    quantity, records [quantity * price] as value, [value - committed cash]
    as profit and that profit over the committed cash, times 100, as
    profit_pct. *)
Theorem ledger_is_chain (self : Backtester) (fetched : list Bar) (cap : fval)
        (ledger : list Trade) (fv : fval) :
  run_backtest self (Some fetched) cap = Finished ledger fv ->
  chain cap ledger.
Proof.
  intro H. apply run_backtest_final in H. subst ledger.
  exact (proj1 (final_state_chain self fetched cap)).
Qed.

Lemma ledger_is_chain_witness : chain (Num 100) ledger32.
Proof.
  assert (H : run_backtest default_backtester (Some feed32) (Num 100)
              = Finished ledger32 final32) by (vm_compute; reflexivity).
  exact (@ledger_is_chain default_backtester feed32 (Num 100)
           ledger32 final32 H).
Defined.

(** X14. The final value is read off the ledger and the last cleaned bar:
    when the ledger ends flat it is the cash in hand (the initial capital
    when nothing was traded, else the value of the last SELL) plus 0; when
    it ends with an open BUY it is 0 plus the quantity of that BUY times the
    close of the last bar that survived [dropna]. *)
Theorem final_value_from_ledger (self : Backtester) (fetched : list Bar)
        (cap : fval) (ledger : list Trade) (fv : fval) :
  run_backtest self (Some fetched) cap = Finished ledger fv ->
  match chain_end cap ledger with
  | Flat c => fv = fadd c zero
  | Held b =>
      exists last_bar,
        nth_error (cleaned self fetched)
                  (length (cleaned self fetched) - 1) = Some last_bar
        /\ fv = fadd zero (fmul (t_amount b) (close (row_bar last_bar)))
  end.
Proof.
  intro H. pose proof (run_backtest_final _ _ _ H) as Hl. subst ledger.
  destruct (final_state_chain self fetched cap) as [_ Hm].
  unfold state_matches in Hm.
  destruct fetched as [| b0 fetched]; [discriminate |].
  rewrite run_backtest_some in H by discriminate. cbv zeta in H.
  fold (final_state self (b0 :: fetched) cap) in H.
  destruct (chain_end cap (trades (final_state self (b0 :: fetched) cap)))
    as [c | b].
  - destruct Hm as [Hpos Hcash]. rewrite Hpos, Hcash in H.
    destruct (trades _); [destruct (is_zero cap); [discriminate |] |];
      congruence.
  - destruct Hm as (Hpos & Hcash & Hq & _). rewrite Hpos, Hcash, Hq in H.
    unfold iloc in H.
    destruct (nth_error _ _) as [last_bar |]; [| discriminate].
    exists last_bar. split; [reflexivity |].
    destruct (trades _); [destruct (is_zero cap); [discriminate |] |];
      congruence.
Qed.

Lemma final_value_from_ledger_witness :
  match chain_end (Num 100) ledger32 with
  | Flat c => final32 = fadd c zero
  | Held b =>
      exists last_bar,
        nth_error (cleaned default_backtester feed32)
                  (length (cleaned default_backtester feed32) - 1)
        = Some last_bar
        /\ final32 = fadd zero (fmul (t_amount b) (close (row_bar last_bar)))
  end.
Proof.
  assert (H : run_backtest default_backtester (Some feed32) (Num 100)
              = Finished ledger32 final32) by (vm_compute; reflexivity).
  exact (@final_value_from_ledger default_backtester feed32 (Num 100)
           ledger32 final32 H).
Defined.

End MoneyFlow.

(* ================================================================== *)
(** * More on the run: where the records come from *)
(* ================================================================== *)

Section Provenance.

Lemma event_trade_bar (cur prev : Row) (s : State) (t : Trade) :
  In t (ev_record (event_of cur prev s)) ->
  t_timestamp t = timestamp (row_bar cur)
  /\ t_price t = close (row_bar cur).
Proof.
  destruct (loop_body_cases cur prev s)
    as [(_ & _ & -> & _) | [(_ & _ & -> & _) | (-> & _)]];
    unfold ev_record; simpl; intro H; try contradiction;
    destruct H as [<- | []]; split; reflexivity.
Qed.

Lemma trace_from_trade_rows (rest : list Row) :
  forall prev s t,
    In t (flat_map ev_record (trace_from prev rest s)) ->
    exists cur,
      In cur rest
      /\ t_timestamp t = timestamp (row_bar cur)
      /\ t_price t = close (row_bar cur).
Proof.
  induction rest as [| cur rest IH]; intros prev s t H; [contradiction |].
  simpl in H. apply in_app_or in H. destruct H as [H | H].
  - exists cur. split; [now left |]. exact (event_trade_bar _ _ _ _ H).
  - destruct (IH _ _ _ H) as (r & Hr & Ht). exists r. split; [now right | exact Ht].
Qed.

(** Every record of the ledger was written at a cleaned row other than the
    first one. *)
Lemma ledger_rows (self : Backtester) (fetched : list Bar) (cap : fval)
      (t : Trade) :
  In t (trades (final_state self fetched cap)) ->
  exists r0 rest cur,
    cleaned self fetched = r0 :: rest
    /\ In cur rest
    /\ t_timestamp t = timestamp (row_bar cur)
    /\ t_price t = close (row_bar cur).
Proof.
  rewrite final_state_trades. unfold backtest_trace. cbv zeta.
  rewrite loop_trace_rows.
  destruct (cleaned self fetched) as [| r0 rest]; [contradiction |].
  intro H. apply trace_from_trade_rows in H.
  destruct H as (cur & Hc & Ht). exists r0, rest, cur. tauto.
Qed.

(** X15. Every record of a returned ledger carries the timestamp and the
    close of a bar of the feed, and that bar comes after the warm-up: its
    position is at least [(rsi_window - 1) + (ma_window - 1) + 1]. *)
Theorem trades_come_from_bars (self : Backtester) (fetched : list Bar)
        (cap : fval) (ledger : list Trade) (fv : fval) :
  run_backtest self (Some fetched) cap = Finished ledger fv ->
  Forall (fun t =>
            exists i b,
              ((rsi_window self - 1) + (ma_window self - 1) + 1 <= i)%nat
              /\ nth_error fetched i = Some b
              /\ t_timestamp t = timestamp b
              /\ t_price t = close b)
         ledger.
Proof.
  intro H. apply run_backtest_final in H. subst ledger.
  apply Forall_forall. intros t Ht.
  destruct (ledger_rows _ _ _ _ Ht) as (r0 & rest & cur & E & Hc & Hts & Hp).
  assert (Hin0 : In r0 (cleaned self fetched)) by (rewrite E; now left).
  assert (Hin : In cur (cleaned self fetched)) by (rewrite E; now right).
  pose proof (cleaned_after_warm_up _ _ _ Hin0) as Hw. unfold warm_up in Hw.
  pose proof (cleaned_sorted self fetched) as Hs. rewrite E in Hs.
  simpl in Hs. apply StronglySorted_inv in Hs. destruct Hs as [_ Hlt].
  rewrite Forall_forall in Hlt.
  specialize (Hlt (row_pos cur) (in_map row_pos _ _ Hc)).
  destruct (cleaned_row _ _ _ Hin) as (_ & Hb & _).
  exists (row_pos cur), (row_bar cur). repeat split; auto. lia.
Qed.

Lemma trades_come_from_bars_witness :
  Forall (fun t =>
            exists i b,
              ((14 - 1) + (14 - 1) + 1 <= i)%nat
              /\ nth_error feed32 i = Some b
              /\ t_timestamp t = timestamp b
              /\ t_price t = close b)
         ledger32.
Proof.
  assert (H : run_backtest default_backtester (Some feed32) (Num 100)
              = Finished ledger32 final32) by (vm_compute; reflexivity).
  exact (@trades_come_from_bars default_backtester feed32 (Num 100)
           ledger32 final32 H).
Defined.

(** X16. Extending the feed only appends to the ledger: the ledger
    returned for a feed is a prefix of the ledger returned for any longer
    feed that starts with it. *)
Theorem ledger_append_only (self : Backtester) (bars later : list Bar)
        (cap : fval) (ledger1 ledger2 : list Trade) (fv1 fv2 : fval) :
  run_backtest self (Some bars) cap = Finished ledger1 fv1 ->
  run_backtest self (Some (bars ++ later)) cap = Finished ledger2 fv2 ->
  exists added, ledger2 = ledger1 ++ added.
Proof.
  intros H1 H2.
  apply run_backtest_final in H1. apply run_backtest_final in H2.
  subst ledger1 ledger2. rewrite !final_state_trades.
  destruct (backtest_trace_app self bars later cap) as (more & -> & _).
  rewrite flat_map_app. eexists. reflexivity.
Qed.

Lemma ledger_append_only_witness :
  exists added, ledger32 = ledger28 ++ added.
Proof.
  assert (H1 : run_backtest default_backtester (Some feed28) (Num 100)
               = Finished ledger28 final28) by (vm_compute; reflexivity).
  assert (H2 : run_backtest default_backtester
                 (Some (feed28 ++ skipn 28 feed32)) (Num 100)
               = Finished ledger32 final32) by (vm_compute; reflexivity).
  exact (@ledger_append_only default_backtester feed28 (skipn 28 feed32)
           (Num 100) ledger28 ledger32 final28 final32 H1 H2).
Defined.

End Provenance.

(* ================================================================== *)
(** * More on the run: signs *)
(* ================================================================== *)

Section Signs.

Lemma is_pos_num_inv (a : fval) :
  is_pos_num a = true -> exists q, a = Num q /\ 0 < q.
Proof.
  destruct a as [q | | |]; simpl; try discriminate.
  intro H. apply Qlt_bool_iff in H. now exists q.
Qed.

Lemma is_pos_num_intro (q : Q) : 0 < q -> is_pos_num (Num q) = true.
Proof. intro H. simpl. now apply Qlt_bool_iff. Qed.

Lemma is_pos_num_nonneg (a : fval) :
  is_pos_num a = true -> at_least_zero a = true.
Proof.
  intro H. destruct (is_pos_num_inv _ H) as (q & -> & Hq).
  simpl. apply Qle_bool_iff. lra.
Qed.

Lemma fdiv_pos (a b : fval) :
  is_pos_num a = true -> is_pos_num b = true -> is_pos_num (fdiv a b) = true.
Proof.
  intros Ha Hb.
  destruct (is_pos_num_inv _ Ha) as (x & -> & Hx).
  destruct (is_pos_num_inv _ Hb) as (y & -> & Hy).
  simpl.
  assert (E : Qeq_bool y 0 = false) by (apply Qeq_bool_false_iff; lra).
  rewrite E. apply is_pos_num_intro.
  apply Qlt_shift_div_l; lra.
Qed.

Lemma fmul_pos (a b : fval) :
  is_pos_num a = true -> is_pos_num b = true -> is_pos_num (fmul a b) = true.
Proof.
  intros Ha Hb.
  destruct (is_pos_num_inv _ Ha) as (x & -> & Hx).
  destruct (is_pos_num_inv _ Hb) as (y & -> & Hy).
  simpl. apply Qlt_bool_iff. nra.
Qed.

Lemma loop_body_positive (cur prev : Row) (s : State) :
  is_pos_num (close (row_bar cur)) = true ->
  state_positive s -> state_positive (loop_body cur prev s).
Proof.
  intros Hp Hs. unfold state_positive in *.
  destruct (loop_body_cases cur prev s)
    as [(_ & Hpos & _ & ->) | [(_ & Hpos & _ & ->) | (_ & ->)]];
    [| | exact Hs]; rewrite Hpos in Hs; simpl.
  - destruct Hs as [Hc _]. repeat split; auto. now apply fdiv_pos.
  - destruct Hs as (_ & Hq & _). split; [now apply fmul_pos | reflexivity].
Qed.

Lemma cleaned_close_pos (self : Backtester) (fetched : list Bar) :
  Forall (fun b => is_pos_num (close b) = true) fetched ->
  Forall (fun r => is_pos_num (close (row_bar r)) = true)
         (cleaned self fetched).
Proof.
  intro H. apply Forall_forall. intros r Hr.
  apply cleaned_In_bar in Hr.
  rewrite Forall_forall in H. exact (H _ Hr).
Qed.

Lemma states_positive (self : Backtester) (fetched : list Bar) (cap : fval) :
  Forall (fun b => is_pos_num (close b) = true) fetched ->
  is_pos_num cap = true ->
  forall s, In s (backtest_states self fetched cap) -> state_positive s.
Proof.
  intros Hp Hcap.
  apply backtest_states_reach
    with (Q := fun r => is_pos_num (close (row_bar r)) = true).
  - intros cur prev s. apply loop_body_positive.
  - now apply cleaned_close_pos.
  - unfold state_positive. simpl. auto.
Qed.

(** What [run_backtest] returns as final value, in terms of the final
    state. *)
Lemma run_backtest_value (self : Backtester) (fetched : list Bar) (cap : fval)
      (ledger : list Trade) (fv : fval) :
  run_backtest self (Some fetched) cap = Finished ledger fv ->
  (in_position (final_state self fetched cap) = false
   /\ fv = fadd (cash (final_state self fetched cap)) zero)
  \/ (in_position (final_state self fetched cap) = true
      /\ exists last_bar,
          In last_bar (cleaned self fetched)
          /\ fv = fadd (cash (final_state self fetched cap))
                       (fmul (position (final_state self fetched cap))
                             (close (row_bar last_bar)))).
Proof.
  destruct fetched as [| b0 fetched]; [discriminate |].
  rewrite run_backtest_some by discriminate. cbv zeta.
  fold (final_state self (b0 :: fetched) cap).
  destruct (in_position (final_state self (b0 :: fetched) cap)).
  - unfold iloc.
    destruct (nth_error _ _) as [last_bar |] eqn:E; [| discriminate].
    intro H. right. split; [reflexivity |].
    exists last_bar. split; [exact (nth_error_In _ _ E) |].
    destruct (trades _); [destruct (is_zero cap); [discriminate |] |];
      congruence.
  - intro H. left. split; [reflexivity |].
    destruct (trades _); [destruct (is_zero cap); [discriminate |] |];
      congruence.
Qed.

(** X17. With a positive initial capital and positive closes, cash and
    quantity are never negative: [cash >= 0] and [position >= 0] hold in
    every state of the loop, and [final_value >= 0] holds for the value
    returned. *)
Theorem never_negative (self : Backtester) (fetched : list Bar) (cap : fval) :
  Forall (fun b => is_pos_num (close b) = true) fetched ->
  is_pos_num cap = true ->
  Forall (fun s => at_least_zero (cash s) = true
                   /\ at_least_zero (position s) = true)
         (backtest_states self fetched cap)
  /\ (forall ledger fv,
         run_backtest self (Some fetched) cap = Finished ledger fv ->
         at_least_zero fv = true).
Proof.
  intros Hp Hcap.
  pose proof (@states_positive self fetched cap Hp Hcap) as Hs.
  split.
  - apply Forall_forall. intros s Hin. specialize (Hs s Hin).
    unfold state_positive in Hs. destruct (in_position s).
    + destruct Hs as (-> & Hq & _).
      split; [reflexivity | now apply is_pos_num_nonneg].
    + destruct Hs as (Hc & ->).
      split; [now apply is_pos_num_nonneg | reflexivity].
  - intros ledger fv H.
    specialize (Hs _ (final_state_in_states self fetched cap)).
    unfold state_positive in Hs.
    destruct (run_backtest_value _ _ _ H)
      as [(Hpos & ->) | (Hpos & last_bar & Hin & ->)];
      rewrite Hpos in Hs.
    + destruct Hs as [Hc _].
      destruct (is_pos_num_inv _ Hc) as (c & -> & Hc0).
      simpl. apply Qle_bool_iff. lra.
    + destruct Hs as (-> & Hq & _).
      pose proof (cleaned_close_pos self Hp) as Hcl.
      rewrite Forall_forall in Hcl. specialize (Hcl _ Hin).
      pose proof (fmul_pos _ _ Hq Hcl) as Hm.
      destruct (is_pos_num_inv _ Hm) as (m & -> & Hm0).
      simpl. apply Qle_bool_iff. lra.
Qed.

Lemma never_negative_witness :
  at_least_zero (cash held_state) = true
  /\ at_least_zero (position held_state) = true.
Proof.
  assert (Hp : Forall (fun b => is_pos_num (close b) = true) feed32)
    by (repeat constructor).
  assert (Hc : is_pos_num (Num 100) = true) by reflexivity.
  destruct (@never_negative default_backtester feed32 (Num 100) Hp Hc)
    as [H _].
  rewrite Forall_forall in H. apply H.
  vm_compute. right. left. reflexivity.
Defined.

End Signs.

(* ================================================================== *)
(** * Feeds that never fall *)
(* ================================================================== *)

Section NeverFalls.

Lemma never_falls_diff (l : list fval) :
  forall prev,
    never_falls_from prev l ->
    Forall (fun d => fltb d zero = false) (diff_from prev l).
Proof.
  induction l as [| x l IH]; intros prev H; simpl; constructor.
  - rewrite fltb_fsub_zero. exact (proj1 H).
  - apply IH. exact (proj2 H).
Qed.

Lemma never_falls_loss_series (prices : list fval) :
  never_falls prices -> Forall (eq zero) (loss_series prices).
Proof.
  intro H. unfold loss_series, diff, where_.
  apply Forall_forall. intros x Hx.
  apply in_map_iff in Hx. destruct Hx as (y & <- & Hy).
  apply in_map_iff in Hy. destruct Hy as (d & <- & Hd).
  pose proof (@never_falls_diff prices NaN H) as Hf.
  rewrite Forall_forall in Hf. rewrite (Hf d Hd). reflexivity.
Qed.

Lemma fdiv_by_zero_loss (g l : fval) :
  ext_nonneg g -> zero_or_nan l -> fdiv g l = NaN \/ fdiv g l = PInf.
Proof.
  intros Hg [-> | (z & -> & Hz)].
  - left. apply fdiv_NaN_r.
  - apply Qeq_bool_iff in Hz.
    destruct g as [x | | |]; simpl in *; try contradiction; auto.
    + rewrite Hz. destruct (Qeq_bool x 0) eqn:Ex; [now left |].
      apply Qeq_bool_false_iff in Ex.
      assert (L : Qlt_bool 0 x = true) by (apply Qlt_bool_iff; lra).
      rewrite L. now right.
    + apply Qeq_bool_iff in Hz.
      assert (L : Qle_bool 0 z = true) by (apply Qle_bool_iff; lra).
      rewrite L. now right.
Qed.

Lemma never_falls_rsi (prices : list fval) (w i : nat) (x : fval) :
  never_falls prices ->
  nth_error (calculate_rsi prices w) i = Some x ->
  hundred_or_nan x.
Proof.
  intros Hn H. rewrite calculate_rsi_nth_error in H.
  destruct (nth_error (avg_gain prices w) i) as [g |] eqn:Eg; [| discriminate].
  destruct (nth_error (avg_loss prices w) i) as [l |] eqn:El; [| discriminate].
  injection H as <-.
  apply rolling_mean_zeros in El;
    [| exact (@never_falls_loss_series prices Hn)].
  pose proof (@rolling_mean_nonneg w _ i g (gain_series_nonneg prices) Eg)
    as Hg.
  destruct (@fdiv_by_zero_loss g l Hg El) as [-> | ->];
    [now left | now right].
Qed.

Lemma of_nat_succ (n : nat) :
  inject_Z (Z.of_nat (S n)) == inject_Z (Z.of_nat n) + 1.
Proof.
  rewrite Nat2Z.inj_succ. unfold Z.succ. now rewrite inject_Z_plus.
Qed.

Lemma fold_fadd_hundreds (l : list fval) :
  forallb is_finite l = true ->
  Forall hundred_or_nan l ->
  forall a, exists s,
    fold_left fadd l (Num a) = Num s
    /\ s == a + 100 * inject_Z (Z.of_nat (length l)).
Proof.
  induction l as [| x l IH]; intros Hf Hh a.
  - exists a. split; [reflexivity |].
    change (inject_Z (Z.of_nat (length (@nil fval)))) with 0. lra.
  - simpl in Hf. apply andb_true_iff in Hf. destruct Hf as [Hx Hf].
    pose proof (Forall_inv Hh) as Hx'. pose proof (Forall_inv_tail Hh) as Hh'.
    destruct Hx' as [-> | ->]; [discriminate |].
    destruct (IH Hf Hh' (a + 100)) as (s & E & Hs).
    exists s. split; [exact E |].
    change (length (Num 100 :: l)) with (S (length l)).
    rewrite of_nat_succ. lra.
Qed.

Lemma window_mean_hundreds (w : nat) (upto : list fval) :
  Forall hundred_or_nan upto -> about_hundred_or_nan (window_mean w upto).
Proof.
  intro H. unfold window_mean.
  destruct (length upto <? w)%nat eqn:El; [now left |].
  apply Nat.ltb_ge in El.
  destruct (forallb is_finite _) eqn:Ef; [| now left].
  destruct (@fold_fadd_hundreds _ Ef
              (Forall_skipn_gen (length upto - w) H) 0) as (s & E & Hs).
  rewrite length_skipn in Hs.
  replace (length upto - (length upto - w))%nat with w in Hs by lia.
  unfold fsum, zero. rewrite E. unfold of_nat. simpl.
  destruct (Qeq_bool (inject_Z (Z.of_nat w)) 0) eqn:Ew.
  - apply Qeq_bool_iff in Ew.
    assert (Es : Qeq_bool s 0 = true) by (apply Qeq_bool_iff; rewrite Hs, Ew; lra).
    rewrite Es. now left.
  - apply Qeq_bool_false_iff in Ew.
    right. eexists. split; [reflexivity |].
    rewrite Hs. field. exact Ew.
Qed.

Lemma never_falls_rsi_ma (prices : list fval) (w1 w2 i : nat) (y : fval) :
  never_falls prices ->
  nth_error (rolling_mean w2 (calculate_rsi prices w1)) i = Some y ->
  about_hundred_or_nan y.
Proof.
  intros Hn H. rewrite rolling_mean_nth_error in H.
  destruct (i <? length (calculate_rsi prices w1))%nat; [| discriminate].
  injection H as <-. apply window_mean_hundreds.
  apply (@Forall_firstn_gen fval hundred_or_nan (calculate_rsi prices w1)
           (S i)).
  apply Forall_forall. intros x Hx.
  apply In_nth_error in Hx. destruct Hx as [j Hj].
  exact (@never_falls_rsi prices w1 j x Hn Hj).
Qed.

Lemma no_crossover (a b : fval) :
  hundred_or_nan a -> about_hundred_or_nan b -> fgtb a b = false.
Proof.
  unfold fgtb. intros [-> | ->] [-> | (m & -> & Hm)]; try reflexivity.
  simpl. apply Qlt_bool_false_iff. lra.
Qed.

Lemma never_falls_rows (self : Backtester) (fetched : list Bar) :
  never_falls (map close fetched) ->
  Forall (fun r => fgtb (rsi r) (rsi_ma r) = false) (cleaned self fetched).
Proof.
  intro Hn. apply Forall_forall. intros r Hr.
  destruct (cleaned_row _ _ _ Hr) as (_ & _ & H1 & H2).
  apply no_crossover.
  - exact (@never_falls_rsi _ _ _ _ Hn H1).
  - exact (@never_falls_rsi_ma _ _ _ _ _ Hn H2).
Qed.

(** Without a crossover the loop leaves a flat state as it is. *)
Lemma quiet_rows (rest : list Row) :
  forall prev s,
    Forall (fun r => fgtb (rsi r) (rsi_ma r) = false) rest ->
    in_position s = false ->
    run_from prev rest s = s
    /\ Forall (fun e => ev_action e = None) (trace_from prev rest s).
Proof.
  induction rest as [| cur rest IH]; intros prev s Hq Hpos; simpl.
  - split; [reflexivity | constructor].
  - pose proof (Forall_inv Hq) as Hc. pose proof (Forall_inv_tail Hq) as Hq'.
    simpl in Hc.
    assert (Eb : buy_signal cur prev s = false).
    { unfold buy_signal. rewrite buy_spec, Hc. apply andb_false_r. }
    assert (Es : sell_signal cur prev s = false).
    { unfold sell_signal. now rewrite Hpos. }
    unfold loop_body, event_of. rewrite Eb, Es.
    destruct (IH cur s Hq' Hpos) as [H1 H2].
    split; [exact H1 |]. constructor; [reflexivity | exact H2].
Qed.

(** X19. On a feed in which no close is below the close before it, the
    strategy never trades: the RSI of every bar is undefined or 100, so it
    never rises above its moving average; every decision of the loop is to
    do nothing and the run returns the empty ledger and the initial
    capital. *)
Theorem never_falls_no_trades (self : Backtester) (fetched : list Bar)
        (cap : fval) :
  fetched <> [] ->
  never_falls (map close fetched) ->
  is_zero cap = false ->
  run_backtest self (Some fetched) cap = Finished [] (fadd cap zero)
  /\ Forall (fun e => ev_action e = None) (backtest_trace self fetched cap).
Proof.
  intros Hne Hn Hcap.
  pose proof (@never_falls_rows self fetched Hn) as Hq.
  rewrite run_backtest_some by exact Hne.
  unfold backtest_trace. cbv zeta. rewrite loop_trace_rows.
  destruct (cleaned self fetched) as [| r0 rest].
  - simpl. rewrite Hcap. split; [reflexivity | constructor].
  - destruct (@quiet_rows rest r0 (initial_state cap) (Forall_inv_tail Hq)
                eq_refl) as [H1 H2].
    unfold walk. rewrite H1. simpl. rewrite Hcap. split; [reflexivity | exact H2].
Qed.

Lemma never_falls_no_trades_witness :
  run_backtest default_backtester (Some rising_feed) (Num 100)
  = Finished [] (fadd (Num 100) zero)
  /\ length (backtest_trace default_backtester rising_feed (Num 100)) = 5%nat.
Proof.
  split; [| vm_compute; reflexivity].
  apply (@never_falls_no_trades default_backtester rising_feed (Num 100)).
  - discriminate.
  - vm_compute. repeat split.
  - reflexivity.
Defined.

End NeverFalls.

(* ================================================================== *)
(** * Where decisions can be taken, and the stop-loss threshold *)
(* ================================================================== *)

Section Thresholds.

Lemma backtest_trace_after_warm_up (self : Backtester) (fetched : list Bar)
      (cap : fval) (e : Event) :
  In e (backtest_trace self fetched cap) ->
  (warm_up self + 1 <= ev_pos e)%nat.
Proof.
  intro H. apply (in_map ev_pos) in H. rewrite backtest_trace_pos in H.
  destruct (cleaned self fetched) as [| r0 rest] eqn:E; [contradiction |].
  assert (Hin0 : In r0 (cleaned self fetched)) by (rewrite E; now left).
  pose proof (cleaned_after_warm_up _ _ _ Hin0) as Hw.
  pose proof (cleaned_sorted self fetched) as Hs. rewrite E in Hs.
  simpl in Hs, H. apply StronglySorted_inv in Hs. destruct Hs as [_ Hlt].
  rewrite Forall_forall in Hlt. specialize (Hlt _ H). lia.
Qed.

(** X20. The loop takes no decision during the warm-up: every decision is
    taken at a bar whose position in the feed is at least
    [(rsi_window - 1) + (ma_window - 1) + 1] (bar 27 for the windows 14 and
    14), so a feed of [n] bars gives at most [n] minus that many
    decisions. *)
Theorem decisions_after_warm_up (self : Backtester) (fetched : list Bar)
        (cap : fval) :
  Forall (fun e =>
            ((rsi_window self - 1) + (ma_window self - 1) + 1 <= ev_pos e)%nat
            /\ (ev_pos e < length fetched)%nat)
         (backtest_trace self fetched cap)
  /\ (length (backtest_trace self fetched cap)
      <= length fetched
         - ((rsi_window self - 1) + (ma_window self - 1) + 1))%nat.
Proof.
  split.
  - apply Forall_forall. intros e He. split.
    + exact (backtest_trace_after_warm_up _ _ _ _ He).
    + exact (backtest_trace_pos_lt _ _ _ _ He).
  - rewrite backtest_trace_length.
    pose proof (cleaned_length self fetched) as H. unfold warm_up in H. lia.
Qed.

Lemma fltb_trans (a b c : fval) :
  fltb a b = true -> fltb b c = true -> fltb a c = true.
Proof.
  destruct a, b, c; simpl; try discriminate; try reflexivity.
  intros H1 H2. apply Qlt_bool_iff in H1. apply Qlt_bool_iff in H2.
  apply Qlt_bool_iff. lra.
Qed.

(** X21. The stop-loss is strict: at a price of exactly 0.99 times the
    purchase price it does not fire, and [check_for_sell] then answers as
    the trend-break test [rsi_now < rsi_ma] alone. *)
Theorem stop_loss_is_strict (rsi_now rsi_ma_now purchase_price : fval) :
  LogicStopLoss.check_for_sell rsi_now rsi_ma_now
    (fmul purchase_price (Num (99 # 100))) purchase_price true
  = fltb rsi_now rsi_ma_now.
Proof.
  unfold LogicStopLoss.check_for_sell. simpl.
  rewrite fltb_irrefl. simpl.
  destruct (fltb rsi_now rsi_ma_now); reflexivity.
Qed.

(** X22. A lower price never cancels a sell: if [check_for_sell] fires at
    some price, it fires at every lower price, the other arguments being the
    same. *)
Theorem check_for_sell_monotone
        (rsi_now rsi_ma_now price lower_price purchase_price : fval)
        (is_invested : bool) :
  fltb lower_price price = true ->
  LogicStopLoss.check_for_sell rsi_now rsi_ma_now price purchase_price
    is_invested = true ->
  LogicStopLoss.check_for_sell rsi_now rsi_ma_now lower_price purchase_price
    is_invested = true.
Proof.
  unfold LogicStopLoss.check_for_sell. intro Hl.
  destruct is_invested; simpl; [| discriminate].
  destruct (fltb rsi_now rsi_ma_now); [now rewrite !orb_true_r |].
  rewrite !orb_false_r.
  destruct (fltb price (fmul purchase_price (Num (99 # 100)))) eqn:E;
    [| discriminate].
  intros _. now rewrite (fltb_trans _ _ _ Hl E).
Qed.

Lemma check_for_sell_monotone_witness :
  LogicStopLoss.check_for_sell (Num 60) (Num 50) (Num 97) (Num 100) true
  = true.
Proof.
  apply (@check_for_sell_monotone (Num 60) (Num 50) (Num 98) (Num 97)
           (Num 100) true); reflexivity.
Defined.

End Thresholds.
